(** * Rue Organics: order lifecycle and pricing

    A shallow embedding of the pricing helpers (src/pages/Cart.tsx,
    src/pages/Checkout.tsx, src/pages/ProductDetail.tsx) and of the order
    tracking page (src/pages/TrackOrder.tsx), followed by the properties
    the specification states about them.

    Conventions.
    - A JavaScript [number] that holds a count (quantity, min_quantity) is a
      [Z]; a price is a [Q], the exact value of the decimal; the result of
      [parseFloat] is an [option Q] where [None] stands for NaN.
    - A JavaScript string is a [string]; the code only looks at ASCII
      characters, every other byte is "not a digit, not a dot".
    - A value decoded from JSON is a [jsval].  [JSON.parse] and
      [JSON.stringify] belong to the runtime: a stored text is represented
      by what [JSON.parse] makes of it ([raw_text]).
    - An exception is an explicit result ([None], [Thrown], [Throws] or
      [Rejected]). *)

From Stdlib Require Import ZArith QArith String Ascii List Sorted Lia.
From stdpp Require Import base option list strings sorting.
Import ListNotations.

Open Scope string_scope.
Open Scope Z_scope.

(* ================================================================== *)
(** * Part I: the program                                              *)
(* ================================================================== *)

(** ** Pricing *)

Module Price.

(** [Array<{ min_quantity: number; price: number }>] *)
Record Tier := mkTier { min_quantity : Z; tier_price : Q }.

(** [interface CartItem], the fields the pricing helpers read. *)
Record CartItem := mkCartItem {
  price : Q;
  quantity : Z;
  pricing_tiers : option (list Tier)   (* [None]: the field is absent *)
}.

(** [Array.prototype.find]: the first element, in index order, that
    satisfies the predicate. *)
Fixpoint find_first {A} (p : A -> bool) (l : list A) : option A :=
  match l with
  | [] => None
  | x :: l' => if p x then Some x else find_first p l'
  end.

(** Cart.tsx 29-35, Checkout.tsx 67-73 (and the cart context):
<<
  if (!item.pricing_tiers || item.pricing_tiers.length === 0) return item.price;
  const tier = item.pricing_tiers.find(t => item.quantity >= t.min_quantity);
  return tier ? tier.price : item.price;
>> *)
Definition getUnitPrice (item : CartItem) : Q :=
  match pricing_tiers item with
  | None => price item
  | Some [] => price item
  | Some tiers =>
      match find_first (fun t => min_quantity t <=? quantity item) tiers with
      | Some tier => tier_price tier
      | None => price item
      end
  end.

(** [lineTotal] of Cart.tsx and Checkout.tsx. *)
Definition lineTotal (item : CartItem) : Q :=
  (getUnitPrice item * inject_Z (quantity item))%Q.

(** *** Textual prices *)

(** [\d] of a regular expression without the unicode flag: 0 to 9. *)
Definition is_digit (c : ascii) : bool :=
  let n := N_of_ascii c in ((48 <=? n) && (n <=? 57))%N.

Definition is_dot (c : ascii) : bool := (N_of_ascii c =? 46)%N.

(** [s.replace(/[^\d.]/g, '')]: every character that is neither a digit
    nor a dot is removed. *)
Fixpoint strip_non_numeric (s : string) : string :=
  match s with
  | EmptyString => EmptyString
  | String c s' =>
      if is_digit c || is_dot c then String c (strip_non_numeric s')
      else strip_non_numeric s'
  end.

Fixpoint drop_chars (n : nat) (s : string) : string :=
  match n, s with
  | O, _ => s
  | S n', String _ s' => drop_chars n' s'
  | S _, EmptyString => EmptyString
  end.

(** [s.replace(pat, '')] with a string pattern: only the first occurrence
    is removed. *)
Fixpoint remove_first (pat s : string) : string :=
  if String.prefix pat s then drop_chars (String.length pat) s
  else match s with
       | EmptyString => EmptyString
       | String c s' => String c (remove_first pat s')
       end.

Definition digit_value (c : ascii) : Z := Z.of_N (N_of_ascii c) - 48.

(** The longest prefix of digits, as digit values, and what follows it. *)
Fixpoint span_digits (s : string) : list Z * string :=
  match s with
  | EmptyString => ([], EmptyString)
  | String c s' =>
      if is_digit c
      then let '(ds, r) := span_digits s' in (digit_value c :: ds, r)
      else ([], s)
  end.

Definition digits_to_Z (ds : list Z) : Z :=
  fold_left (fun acc d => 10 * acc + d) ds 0.

(** [parseFloat] on the texts that reach it here, which hold digits and
    dots only: the longest prefix of the form [digits], [digits.],
    [digits.digits] or [.digits] is read as a decimal; when there is no
    such prefix the result is NaN ([None]).  The value is the exact
    decimal; the runtime rounds it to the nearest double. *)
Definition parseFloat (s : string) : option Q :=
  let '(ip, r) := span_digits s in
  let fp := match r with
            | String c r' => if is_dot c then fst (span_digits r') else []
            | EmptyString => []
            end in
  match ip, fp with
  | [], [] => None
  | _, _ =>
      Some (Qred (inject_Z (digits_to_Z ip)
                  + Qmake (digits_to_Z fp) (Pos.pow 10 (Pos.of_nat (length fp)))))
  end.

(** [x || 0] on a number: NaN and 0 are falsy. *)
Definition or_zero (x : option Q) : Q :=
  match x with
  | Some q => if Qeq_bool q 0 then 0%Q else q
  | None => 0%Q
  end.

(** [rawPrice: number | string | undefined] *)
Inductive RawPrice :=
| PUndefined
| PNumber (q : Q)
| PString (s : string).

(** ProductDetail.tsx 64-71:
<<
  if (rawPrice === undefined || rawPrice === null) return 0;
  if (typeof rawPrice === 'number') return rawPrice;
  if (typeof rawPrice === 'string')
    return parseFloat(rawPrice.replace('KES ', '').replace(/[^\d.]/g, '')) || 0;
  return 0;
>> *)
Definition parsePriceToNumber (rawPrice : RawPrice) : Q :=
  match rawPrice with
  | PUndefined => 0%Q
  | PNumber q => q
  | PString s => or_zero (parseFloat (strip_non_numeric (remove_first "KES " s)))
  end.

(** TrackOrder.tsx 116, the price of an order line:
<<
  itemPrice = typeof product?.price === 'string'
    ? parseFloat(product.price.replace(/[^\d.]/g, ''))
    : (product?.price as number) || 0;
>>
    The conditional binds weaker than [||]: the fallback to 0 belongs to the
    numeric branch only, so the textual branch can yield NaN ([None]). *)
Definition enrichedItemPrice (rawPrice : RawPrice) : option Q :=
  match rawPrice with
  | PString s => parseFloat (strip_non_numeric s)
  | PNumber q => Some (or_zero (Some q))
  | PUndefined => Some 0%Q
  end.

End Price.


(** ** Values of the runtime *)

Module JS.

(** What [JSON.parse] can return, and [undefined] for a property that is
    not there.  An object is the list of its own properties. *)
#[warnings="-register-all"]
Inductive jsval :=
| VUndefined
| VNull
| VBool (b : bool)
| VNumber (q : Q)
| VString (s : string)
| VArray (items : list jsval)
| VObject (fields : list (string * jsval)).

(** ToBoolean. *)
Definition truthy (v : jsval) : bool :=
  match v with
  | VUndefined | VNull => false
  | VBool b => b
  | VNumber q => negb (Qeq_bool q 0)
  | VString s => negb (String.eqb s "")
  | VArray _ | VObject _ => true
  end.

(** [a || b] *)
Definition js_or (a b : jsval) : jsval := if truthy a then a else b.

Fixpoint own_property (k : string) (fields : list (string * jsval)) : jsval :=
  match fields with
  | [] => VUndefined
  | (k', v) :: rest => if String.eqb k k' then v else own_property k rest
  end.

(** [v.k] for the property names the tracking page reads ([stage],
    [address], [instructions], [name], [timestamp], [completed]): none of
    them is inherited, so only an object can have one.  Reading a property
    of [null] or [undefined] throws a TypeError ([None]). *)
Definition member (v : jsval) (k : string) : option jsval :=
  match v with
  | VUndefined | VNull => None
  | VObject fields => Some (own_property k fields)
  | VBool _ | VNumber _ | VString _ | VArray _ => Some VUndefined
  end.

Definition of_nat (n : nat) : jsval := VNumber (inject_Z (Z.of_nat n)).

(** [v.length].  For a text the number of bytes stands for the number of
    UTF-16 code units; nothing below depends on it, a text ends in the catch
    clause of the parser whatever its length. *)
Definition length_of (v : jsval) : option jsval :=
  match v with
  | VUndefined | VNull => None
  | VArray items => Some (of_nat (length items))
  | VString s => Some (of_nat (String.length s))
  | VObject fields => Some (own_property "length" fields)
  | VBool _ | VNumber _ => Some VUndefined
  end.

(** [v[0]] *)
Definition index0 (v : jsval) : option jsval :=
  match v with
  | VUndefined | VNull => None
  | VArray items => Some (match items with x :: _ => x | [] => VUndefined end)
  | VString s =>
      Some (match s with String c _ => VString (String c "") | "" => VUndefined end)
  | VObject fields => Some (own_property "0" fields)
  | VBool _ | VNumber _ => Some VUndefined
  end.

(** [v === 1] *)
Definition is_one (v : jsval) : bool :=
  match v with VNumber q => Qeq_bool q 1 | _ => false end.

(** [v === 'text'] *)
Definition is_string (v : jsval) (text : string) : bool :=
  match v with VString s => String.eqb s text | _ => false end.

(** The content of a text column that holds JSON: absent ([undefined],
    [null] or the empty text, all falsy), or a text, given by what
    [JSON.parse] makes of it ([None]: it throws a SyntaxError). *)
Inductive raw_text :=
| RawAbsent
| RawText (decoded : option jsval).

(** [JSON.parse(raw || '[]')] *)
Definition parse_or_empty (raw : raw_text) : option jsval :=
  match raw with
  | RawAbsent => Some (VArray [])
  | RawText decoded => decoded
  end.

(** [JSON.stringify(v)], for a value without [undefined] in it: a text
    that [JSON.parse] decodes to [v]. *)
Definition JSON_stringify (v : jsval) : raw_text := RawText (Some v).

End JS.

(** ** The tracking page (src/pages/TrackOrder.tsx) *)

Module Track.
Import JS.

(** [interface Stage].  The fields hold what the runtime puts there: [name]
    and [timestamp] come out of [||] chains over decoded values. *)
Record Stage := mkStage {
  name : jsval;
  timestamp : jsval;
  completed : bool
}.

(** [interface Order], without the order lines ([items], [total_price]),
    which no stage operation reads. *)
Record Order := mkOrder {
  id : string;
  user_id : string;
  status : jsval;
  stages : list Stage;
  created_at : string;
  delivery_address : jsval;
  instructions : jsval
}.

(** A row of the [orders] table, same omission. *)
Record Row := mkRow {
  row_id : string;
  row_user_id : string;
  row_status : jsval;
  row_stages : raw_text;
  row_created_at : string
}.

Record User := mkUser { uid : string }.

(** What the component closes over: the route parameter, the session and
    user of the auth context, and the [order] state. *)
Record Page := mkPage {
  orderId : option string;
  session : bool;
  user : option User;
  order : option Order
}.

(** *** Parsing the stages column (lines 131-176) *)

(** The literal of the catch clause (lines 168-175). *)
Definition default_stages (created : string) : list Stage :=
  [ mkStage (VString "Order Placed") (VString created) true;
    mkStage (VString "Payment Pending") (VString "") false;
    mkStage (VString "Processing") (VString "") false;
    mkStage (VString "Shipped") (VString "") false;
    mkStage (VString "Delivered") (VString "") false;
    mkStage (VString "Confirmed Received") (VString "") false ].

Definition stage_literal (n : string) (c : bool) (t : string) : jsval :=
  VObject [("name", VString n); ("completed", VBool c); ("timestamp", VString t)].

(** The literal of the delivery branch (lines 143-150), before it goes
    through the [map] of line 160. *)
Definition default_objects (created : string) : list jsval :=
  [ stage_literal "Order Placed" true created;
    stage_literal "Payment Pending" false "";
    stage_literal "Processing" false "";
    stage_literal "Shipped" false "";
    stage_literal "Delivered" false "";
    stage_literal "Confirmed Received" false "" ].

(** Lines 160-164, one entry:
<<
    ({ name: s.name || s.stage || 'Unknown',
       timestamp: s.timestamp || '',
       completed: !!s.completed })
>> *)
Definition conform (s : jsval) : option Stage :=
  n ← member s "name";
  g ← member s "stage";
  t ← member s "timestamp";
  c ← member s "completed";
  Some (mkStage (js_or (js_or n g) (VString "Unknown"))
                (js_or t (VString ""))
                (truthy c)).

(** [parsedStages.map(...)]: only an array has [map]. *)
Definition conform_all (parsed : jsval) : option (list Stage) :=
  match parsed with
  | VArray items => mapM conform items
  | _ => None
  end.

(** Line 139: [parsedStages.length === 1 && parsedStages[0].stage === 'delivery'].
    [Some (Some first)]: the condition holds, [first] is [parsedStages[0]];
    [Some None]: it does not; [None]: evaluating it throws. *)
Definition single_delivery (parsed : jsval) : option (option jsval) :=
  len ← length_of parsed;
  if is_one len then
    first ← index0 parsed;
    tag ← member first "stage";
    Some (if is_string tag "delivery" then Some first else None)
  else Some None.

(** [items.find(s => s.address)] *)
Fixpoint find_address (items : list jsval) : option (option jsval) :=
  match items with
  | [] => Some None
  | s :: rest =>
      a ← member s "address";
      if truthy a then Some (Some s) else find_address rest
  end.

(** Line 153: only an array has [find]. *)
Definition find_delivery_stage (parsed : jsval) : option (option jsval) :=
  match parsed with
  | VArray items => find_address items
  | _ => None
  end.

(** [(e.address || '', e.instructions || '')] *)
Definition delivery_info (e : jsval) : option (jsval * jsval) :=
  a ← member e "address";
  i ← member e "instructions";
  Some (js_or a (VString ""), js_or i (VString "")).

(** How the [try] block of lines 135-164 ends: normally, with the stage
    list, or by a throw; either way with the current values of
    [deliveryAddress] and [instructions]. *)
Inductive attempt :=
| Done (parsed : list Stage) (address instr : jsval)
| Thrown (address instr : jsval).

Definition try_block (raw : raw_text) (created : string) : attempt :=
  match parse_or_empty raw with
  | None => Thrown (VString "") (VString "")
  | Some parsed =>
      match single_delivery parsed with
      | None => Thrown (VString "") (VString "")
      | Some (Some first) =>
          match delivery_info first with
          | None => Thrown (VString "") (VString "")
          | Some (address, instr) =>
              match conform_all (VArray (default_objects created)) with
              | Some st => Done st address instr
              | None => Thrown address instr
              end
          end
      | Some None =>
          match find_delivery_stage parsed with
          | None => Thrown (VString "") (VString "")
          | Some found =>
              match match found with
                    | Some e => delivery_info e
                    | None => Some (VString "", VString "")
                    end with
              | None => Thrown (VString "") (VString "")
              | Some (address, instr) =>
                  match conform_all parsed with
                  | Some st => Done st address instr
                  | None => Thrown address instr
                  end
              end
          end
      end
  end.

Record Parsed := mkParsed {
  parsedStages : list Stage;
  deliveryAddress : jsval;
  parsedInstructions : jsval
}.

(** The stage parser: the [try] block and its [catch] clause. *)
Definition parse_stages (raw : raw_text) (created : string) : Parsed :=
  match try_block raw created with
  | Done st address instr => mkParsed st address instr
  | Thrown address instr => mkParsed (default_stages created) address instr
  end.

(** *** Fetching the order (lines 62-187) *)

Inductive fetch_error :=
| NoOrderId          (* 'No order ID provided' *)
| PleaseSignIn       (* 'Please sign in' *)
| NotAuthenticated   (* 'User not authenticated' *)
| FetchError         (* the error of [.single()]: not exactly one row *)
| AccessDenied.      (* 'Access denied' *)

Inductive fetch_result :=
| Rejected (e : fetch_error)
| Fetched (o : Order).

(** [.from('orders').select('*').eq('id', orderId).single()] *)
Definition select_single (db : list Row) (oid : string) : option Row :=
  match filter (fun r => row_id r = oid) db with
  | [r] => Some r
  | _ => None
  end.

Definition order_of_row (data : Row) : Order :=
  let p := parse_stages (row_stages data) (row_created_at data) in
  mkOrder (row_id data) (row_user_id data) (row_status data)
          (parsedStages p) (row_created_at data)
          (deliveryAddress p) (parsedInstructions p).

Definition queryFn (db : list Row) (pg : Page) : fetch_result :=
  match orderId pg with
  | None => Rejected NoOrderId
  | Some oid =>
      if String.eqb oid "" then Rejected NoOrderId
      else if negb (session pg) then Rejected PleaseSignIn
      else match user pg with
           | None => Rejected NotAuthenticated
           | Some u =>
               match select_single db oid with
               | None => Rejected FetchError
               | Some data =>
                   if negb (String.eqb (row_user_id data) (uid u))
                   then Rejected AccessDenied
                   else Fetched (order_of_row data)
               end
           end
  end.

(** Lines 191-196: the [order] state follows a successful fetch; a rejected
    one leaves it as it is. *)
Definition refetch (db : list Row) (pg : Page) : Page :=
  match queryFn db pg with
  | Fetched o => mkPage (orderId pg) (session pg) (user pg) (Some o)
  | Rejected _ => pg
  end.

(** *** Writing (lines 218-263) *)

(** [.update({ status, stages }).eq('id', orderId).eq('user_id', user.id)] *)
Record UpdateRequest := mkUpdate {
  set_status : jsval;
  set_stages : raw_text;
  where_id : option string;
  where_user_id : string
}.

Definition stage_object (s : Stage) : jsval :=
  VObject [("name", name s); ("timestamp", timestamp s);
           ("completed", VBool (completed s))].

(** [JSON.stringify(updatedStages)] *)
Definition stringify_stages (l : list Stage) : raw_text :=
  JSON_stringify (VArray (stage_object <$> l)).

Definition matches (req : UpdateRequest) (r : Row) : bool :=
  match where_id req with
  | Some oid => String.eqb (row_id r) oid && String.eqb (row_user_id r) (where_user_id req)
  | None => false
  end.

Definition updated_row (req : UpdateRequest) (r : Row) : Row :=
  if matches req r
  then mkRow (row_id r) (row_user_id r) (set_status req) (set_stages req)
             (row_created_at r)
  else r.

(** The store applies an update to the rows that satisfy both filters. *)
Definition apply_update (req : UpdateRequest) (db : list Row) : list Row :=
  updated_row req <$> db.

(** [{ ...stage, completed: true, timestamp: now }] *)
Definition complete_at (now : string) (s : Stage) : Stage :=
  mkStage (name s) (VString now) true.

(** [order.stages.findIndex(s => !s.completed)] *)
Definition current_stage (l : list Stage) : option (nat * Stage) :=
  list_find (fun s => completed s = false) l.

(** Lines 218-232: the update [advanceStage] sends, if any. *)
Definition advanceStage (pg : Page) (now : string) : option UpdateRequest :=
  match order pg, user pg with
  | Some o, Some u =>
      match current_stage (stages o) with
      | Some (currentIndex, cur) =>
          if Z.of_nat currentIndex <? Z.of_nat (length (stages o)) - 1 then
            let updatedStages := <[currentIndex := complete_at now cur]> (stages o) in
            match updatedStages !! S currentIndex with
            | Some next =>
                Some (mkUpdate (name next) (stringify_stages updatedStages)
                               (orderId pg) (uid u))
            | None => None
            end
          else None
      | None => None
      end
  | _, _ => None
  end.

Inductive outcome :=
| Returns                        (* the early [return] *)
| Throws                         (* a TypeError escapes the handler *)
| Sends (req : UpdateRequest).

(** Lines 242-255.  With no stage at all, [order.stages[-1]] is
    [undefined] and reading [.completed] throws. *)
Definition confirmReceipt (pg : Page) (now : string) : outcome :=
  match order pg, user pg with
  | Some o, Some u =>
      match last (stages o) with
      | None => Throws
      | Some final =>
          if completed final then Returns
          else
            let lastIndex := (length (stages o) - 1)%nat in
            let updatedStages := <[lastIndex := complete_at now final]> (stages o) in
            Sends (mkUpdate (VString "Confirmed Received")
                            (stringify_stages updatedStages)
                            (orderId pg) (uid u))
      end
  | _, _ => Returns
  end.

(** Lines 414-421: the "Confirm Received" button is rendered when
    [stages[last].name === 'Delivered' && !stages[last].completed]. *)
Definition confirmButtonShown (o : Order) : bool :=
  match last (stages o) with
  | Some final => is_string (name final) "Delivered" && negb (completed final)
  | None => false
  end.

(** A click on that button: [confirmReceipt] runs if the button is there. *)
Definition clickConfirmReceived (pg : Page) (now : string) : outcome :=
  match order pg with
  | Some o => if confirmButtonShown o then confirmReceipt pg now else Returns
  | None => Returns
  end.

(** *** The page and the store together *)

(** What can happen: the query runs (first load, retry, change feed),
    [advanceStage] or [confirmReceipt] is called at time [now], and the
    store accepts the write or answers with an error. *)
Inductive event :=
| Fetch
| Advance (now : string) (write_ok : bool)
| Confirm (now : string) (write_ok : bool).

(** An update that the store accepts is applied and followed by [refetch()];
    one that it refuses changes nothing (the handler only alerts). *)
Definition send (req : UpdateRequest) (write_ok : bool)
    (st : list Row * Page) : list Row * Page :=
  if write_ok
  then let db' := apply_update req (fst st) in (db', refetch db' (snd st))
  else st.

Definition step (e : event) (st : list Row * Page) : list Row * Page :=
  match e with
  | Fetch => (fst st, refetch (fst st) (snd st))
  | Advance now write_ok =>
      match advanceStage (snd st) now with
      | Some req => send req write_ok st
      | None => st
      end
  | Confirm now write_ok =>
      match confirmReceipt (snd st) now with
      | Sends req => send req write_ok st
      | Returns | Throws => st
      end
  end.

Definition run (es : list event) (st : list Row * Page) : list Row * Page :=
  fold_left (fun s e => step e s) es st.

(** The stage list on display. *)
Definition shown (st : list Row * Page) : list Stage :=
  match order (snd st) with
  | Some o => stages o
  | None => []
  end.

End Track.

(** ** Placing an order (src/pages/Checkout.tsx) *)

Module Checkout.
Import JS Track.

(** [interface DeliveryInfo], the two text fields of the form. *)
Record DeliveryInfo := mkDeliveryInfo {
  address : string;
  instructions : string
}.

(** Lines 140-142:
<<
    [{ stage: 'delivery', address: deliveryInfo.address,
       instructions: deliveryInfo.instructions, status: 'pending' }]
>> *)
Definition deliveryStages (info : DeliveryInfo) : jsval :=
  VArray [ VObject [ ("stage", VString "delivery");
                     ("address", VString (address info));
                     ("instructions", VString (instructions info));
                     ("status", VString "pending") ] ].

(** Lines 131-153: the row [handlePlaceOrder] inserts, when there is a user
    and a non-empty address and the insert succeeds.  The store supplies
    [id] and [created_at]. *)
Definition handlePlaceOrder (user : option User) (info : DeliveryInfo)
    (insert_ok : bool) (new_id created : string) : option Row :=
  match user with
  | Some u =>
      if negb (String.eqb (address info) "") && insert_ok
      then Some (mkRow new_id (uid u) (VString "Order Placed (Making Order)")
                       (JSON_stringify (deliveryStages info)) created)
      else None
  | None => None
  end.

End Checkout.

(** ** What the specification says, as predicates *)

Module Says.
Import Price JS Track.

(** "Among tiers whose minQuantity <= quantity, the price of the tier with
    the largest such minQuantity; if no tier qualifies, the base price":
    [p] is that price. *)
Definition largest_qualifying (base : Q) (tiers : list Tier) (q : Z) (p : Q) : Prop :=
  (exists t, In t tiers /\ min_quantity t <= q /\
             (forall t', In t' tiers -> min_quantity t' <= q ->
                         min_quantity t' <= min_quantity t) /\
             p = tier_price t)
  \/ ((forall t, In t tiers -> q < min_quantity t) /\ p = base).

(** [p] is the price of the first tier, in stored order, that qualifies. *)
Definition first_qualifying (base : Q) (tiers : list Tier) (q : Z) (p : Q) : Prop :=
  (exists (before : list Tier) t after, tiers = (before ++ t :: after)%list /\
             Forall (fun t' => q < min_quantity t') before /\
             min_quantity t <= q /\ p = tier_price t)
  \/ (Forall (fun t => q < min_quantity t) tiers /\ p = base).

(** The tiers are stored from the largest threshold down. *)
Definition descending (tiers : list Tier) : Prop :=
  StronglySorted (fun a b => min_quantity b <= min_quantity a) tiers.

Definition has_no_digit (s : string) : Prop :=
  Forall (fun c => is_digit c = false) (list_ascii_of_string s).

Definition head_not_digit (t : string) : Prop :=
  match t with
  | EmptyString => True
  | String c _ => is_digit c = false
  end.

(** "Fails to decode as structured data": [JSON.parse] throws, or what it
    returns is not a list. *)
Definition undecodable (raw : raw_text) : Prop :=
  match raw with
  | RawAbsent => False
  | RawText None => True
  | RawText (Some (VArray _)) => False
  | RawText (Some _) => True
  end.

(** A stage as the parser leaves it: the name is truthy and the timestamp
    is what [timestamp || ''] gives. *)
Definition conformant (s : Stage) : Prop :=
  truthy (name s) = true /\ js_or (timestamp s) (VString "") = timestamp s.

(** The [order] state, when set, is what the query returns now: nothing
    but this page has written to the store since the last fetch. *)
Definition in_sync (st : list Row * Page) : Prop :=
  forall o, order (snd st) = Some o -> queryFn (fst st) (snd st) = Fetched o.

(** "A completed stage is never re-opened": every stage completed in [l]
    is still there, unchanged, in [l']. *)
Definition keeps_completed (l l' : list Stage) : Prop :=
  forall i s, l !! i = Some s -> completed s = true -> l' !! i = Some s.

(** Order on timestamps: the texts that [toISOString] produces have a
    fixed width and are in UTC, so they sort as the instants do. *)
Definition ts_le (a b : jsval) : Prop :=
  match a, b with
  | VString x, VString y => String.leb x y = true
  | _, _ => False
  end.

Definition completed_times (l : list Stage) : list jsval :=
  timestamp <$> filter (fun s => completed s = true) l.

(** "Timestamps of completed stages are non-decreasing by stage order." *)
Definition chronological (l : list Stage) : Prop :=
  StronglySorted ts_le (completed_times l).

(** "All stages before the current one are completed, all after are
    pending." *)
Definition completed_prefix (l : list Stage) : Prop :=
  forall i j s, (i < j)%nat -> l !! j = Some s -> completed s = true ->
                exists s', l !! i = Some s' /\ completed s' = true.

Definition event_time (e : event) : option string :=
  match e with
  | Fetch => None
  | Advance now _ | Confirm now _ => Some now
  end.

Definition is_confirm (e : event) : bool :=
  match e with Confirm _ _ => true | _ => false end.

(** The times of the events, in order. *)
Definition event_times (es : list event) : list jsval :=
  omap (fun e => VString <$> event_time e) es.

End Says.

(** ** Sample states *)

Module Examples.
Import JS Track.

(** An order as checkout leaves it, owned by "u1". *)
Definition placed_row : Row :=
  mkRow "o1" "u1" (VString "Order Placed (Making Order)")
        (JSON_stringify
           (Checkout.deliveryStages (Checkout.mkDeliveryInfo "Plot 7, Kiambu Road" "")))
        "2025-01-01T08:00:00+00:00".

(** An order whose stored workflow has three stages and ends in
    "Delivered". *)
Definition short_row : Row :=
  mkRow "o2" "u1" (VString "Processing")
        (stringify_stages
           [ mkStage (VString "Order Placed") (VString "2025-01-01T08:00:00.000Z") true;
             mkStage (VString "Processing") (VString "") false;
             mkStage (VString "Delivered") (VString "") false ])
        "2025-01-01T08:00:00+00:00".

Definition store : list Row := [placed_row; short_row].

(** The page of user [who] on order [oid], before and after its query. *)
Definition opened (who oid : string) : Page :=
  mkPage (Some oid) true (Some (mkUser who)) None.

Definition loaded (who oid : string) : list Row * Page :=
  (store, refetch store (opened who oid)).

(** [confirmReceipt] at ten, then [advanceStage] at eleven, both accepted,
    on the three-stage order. *)
Definition confirmed_early : list Row * Page :=
  run [Confirm "2025-01-03T10:00:00.000Z" true;
       Advance "2025-01-03T11:00:00.000Z" true] (loaded "u1" "o2").

(** The same two calls on the order as placed, with its six stages. *)
Definition confirmed_early_placed : list Row * Page :=
  run [Confirm "2025-01-03T10:00:00.000Z" true;
       Advance "2025-01-03T11:00:00.000Z" true] (loaded "u1" "o1").

(** The page of "u1" on its three-stage order, after the auth context has
    handed the mounted component another account, "u2".  [user] is read from
    [useAuth()] at every render (line 42); the [order] state is only ever
    set from a fetched order (lines 191-196), and the query key,
    [['order', orderId]] (line 61), does not name the user, so the change of
    account neither clears the state nor runs the query again. *)
Definition switched_account : Page :=
  mkPage (Some "o2") true (Some (mkUser "u2")) (order (snd (loaded "u1" "o2"))).

(** Two accepted [advanceStage], a fetch and a refused write in between, on
    the order as placed. *)
Definition advanced_twice : list event :=
  [Advance "2025-01-02T09:30:00.000Z" true; Fetch;
   Advance "2025-01-02T10:00:00.000Z" false;
   Advance "2025-01-02T11:00:00.000Z" true].

End Examples.

(** ** The cart (the cart context, after the auth context in
    src/contexts/AuthContext.tsx) *)

Module Cart.
Import Price.

(** [interface CartItem] of the cart context, every field. *)
Record Item := mkItem {
  id : string;
  name : string;
  price : Q;
  quantity : Z;
  imageUrl : option string;
  pricing_tiers : option (list Tier);
  size : option string;
  variant_id : option string
}.

(** The same object, as the pricing helpers read it. *)
Definition priced (item : Item) : CartItem :=
  mkCartItem (price item) (quantity item) (pricing_tiers item).

(** [{ ...item, quantity: q }] *)
Definition with_quantity (q : Z) (item : Item) : Item :=
  mkItem (id item) (name item) (price item) q (imageUrl item)
         (pricing_tiers item) (size item) (variant_id item).

(** [type CartAction] *)
Inductive CartAction :=
| ADD_ITEM (payload : Item)
| UPDATE_QUANTITY (target : string) (q : Z)
| REMOVE_ITEM (target : string)
| CLEAR_CART.

(** [cartReducer]:
<<
    case 'ADD_ITEM':
      const existingItem = state.find(item => item.id === action.payload.id);
      if (existingItem) {
        return state.map(item => item.id === action.payload.id
          ? { ...item, quantity: item.quantity + action.payload.quantity } : item);
      }
      return [...state, { ...action.payload }];
    case 'UPDATE_QUANTITY':
      return state.map(item => item.id === action.payload.id
          ? { ...item, quantity: Math.max(1, action.payload.quantity) } : item
        ).filter(item => item.quantity > 0);
    case 'REMOVE_ITEM':
      return state.filter(item => item.id !== action.payload.id);
    case 'CLEAR_CART':
      return [];
>> *)
Definition cartReducer (state : list Item) (action : CartAction) : list Item :=
  match action with
  | ADD_ITEM payload =>
      match find_first (fun item => String.eqb (id item) (id payload)) state with
      | Some _ =>
          (fun item => if String.eqb (id item) (id payload)
                       then with_quantity (quantity item + quantity payload) item
                       else item) <$> state
      | None => (state ++ [payload])%list
      end
  | UPDATE_QUANTITY target q =>
      filter (fun item => 0 < quantity item)
             ((fun item => if String.eqb (id item) target
                           then with_quantity (Z.max 1 q) item
                           else item) <$> state)
  | REMOVE_ITEM target => filter (fun item => id item <> target) state
  | CLEAR_CART => []
  end.

(** [cart.reduce((sum, item) => sum + item.quantity, 0)] *)
Definition totalItems (cart : list Item) : Z :=
  fold_left (fun sum item => sum + quantity item) cart 0.

(** The cart after a series of dispatched actions. *)
Definition dispatch_all (actions : list CartAction) (state : list Item) : list Item :=
  fold_left cartReducer actions state.

(** The quantity an action puts into the cart, for [ADD_ITEM]. *)
Definition adds_at_least_one (action : CartAction) : Prop :=
  match action with
  | ADD_ITEM payload => 1 <= quantity payload
  | _ => True
  end.

End Cart.

(** ** The product page (src/pages/ProductDetail.tsx) *)

Module Product.
Import Price.

(** [pricing_tiers] of a product: the price is a number or a text. *)
Record ProductTier := mkProductTier {
  tier_min_quantity : Z;
  tier_raw_price : RawPrice
}.

(** [interface Product], the fields [handleAddToCart] reads. *)
Record Product := mkProduct {
  product_id : string;
  product_name : string;
  product_price : RawPrice;
  image_url : option string;
  product_tiers : option (list ProductTier)
}.

(** [interface ProductVariant] *)
Record ProductVariant := mkVariant {
  variant_id : string;
  variant_size : string;
  variant_price : RawPrice;
  stock : Z
}.

(** The state of the page that the cart button depends on. *)
Record Selection := mkSelection {
  quantity : Z;
  selectedSize : string;
  selectedVariantId : string
}.

(** [useState(1)], [useState('')], [useState('')] *)
Definition initial : Selection := mkSelection 1 "" "".

(** [s.includes(pat)] *)
Fixpoint includes (pat s : string) : bool :=
  if String.prefix pat s then true
  else match s with
       | EmptyString => false
       | String _ s' => includes pat s'
       end.

Section Display.

(** [`${n}`] for a number, which is the runtime's. *)
Variable number_to_string : Q -> string.

(** Lines 54-61:
<<
    if (rawPrice === undefined || rawPrice === null) return 'KES ___';
    if (typeof rawPrice === 'number') return `KES ${rawPrice}`;
    if (typeof rawPrice === 'string')
      return rawPrice.includes('KES') ? rawPrice : `KES ${rawPrice}`;
>> *)
Definition formatPriceForDisplay (rawPrice : RawPrice) : string :=
  match rawPrice with
  | PUndefined => "KES ___"
  | PNumber n => "KES " ++ number_to_string n
  | PString s => if includes "KES" s then s else "KES " ++ s
  end.

End Display.

(** Line 143: [setQuantity(prev => Math.max(1, prev + delta))] *)
Definition handleQuantityChange (delta : Z) (sel : Selection) : Selection :=
  mkSelection (Z.max 1 (quantity sel + delta)) (selectedSize sel) (selectedVariantId sel).

(** The size selector (lines 284-289): the size is recorded as chosen; the
    variant only when one has that size. *)
Definition handleSizeChange (variants : list ProductVariant) (chosen : string)
    (sel : Selection) : Selection :=
  match find_first (fun v => String.eqb (variant_size v) chosen) variants with
  | Some variant => mkSelection (quantity sel) chosen (variant_id variant)
  | None => mkSelection (quantity sel) chosen (selectedVariantId sel)
  end.

(** What the user does on the page before adding to the cart. *)
Inductive gesture :=
| PressQuantity (delta : Z)
| ChooseSize (chosen : string).

Definition perform (variants : list ProductVariant) (sel : Selection) (g : gesture)
    : Selection :=
  match g with
  | PressQuantity delta => handleQuantityChange delta sel
  | ChooseSize chosen => handleSizeChange variants chosen sel
  end.

(** The selector offers the empty choice and the sizes of the variants. *)
Definition offered (variants : list ProductVariant) (g : gesture) : Prop :=
  match g with
  | PressQuantity delta => delta = 1 \/ delta = -1
  | ChooseSize chosen => chosen = "" \/ In chosen (map variant_size variants)
  end.

(** Lines 160-169, [getNumericPriceForCart]. *)
Definition getNumericPriceForCart (product : option Product)
    (variants : list ProductVariant) (sel : Selection) : Q :=
  parsePriceToNumber
    (if String.eqb (selectedVariantId sel) ""
     then match product with Some p => product_price p | None => PUndefined end
     else match find_first (fun v => String.eqb (variant_id v) (selectedVariantId sel))
                           variants with
          | Some variant => variant_price variant
          | None => PUndefined
          end).

(** Lines 171-192, [handleAddToCart]: the item handed to [addItem], if any. *)
Definition handleAddToCart (product : option Product)
    (variants : list ProductVariant) (sel : Selection) : option Cart.Item :=
  match product with
  | Some p =>
      if String.eqb (selectedVariantId sel) "" then None
      else match find_first (fun v => String.eqb (variant_id v) (selectedVariantId sel))
                            variants with
           | Some variant =>
               Some (Cart.mkItem
                       (product_id p)
                       (product_name p ++ " - " ++ variant_size variant)
                       (getNumericPriceForCart product variants sel)
                       (quantity sel)
                       (image_url p)
                       ((fun tiers =>
                           map (fun tier => mkTier (tier_min_quantity tier)
                                              (parsePriceToNumber (tier_raw_price tier)))
                               tiers) <$> product_tiers p)
                       (Some (variant_size variant))
                       (Some (variant_id variant)))
           | None => None
           end
  | None => None
  end.

(** Lines 343-351: the button is rendered when a size is selected. *)
Definition clickAddToCart (product : option Product)
    (variants : list ProductVariant) (sel : Selection) : option Cart.Item :=
  if String.eqb (selectedSize sel) "" then None
  else handleAddToCart product variants sel.

End Product.

(** ** The buttons of the tracking page (src/pages/TrackOrder.tsx) *)

Module Buttons.
Import JS Track.

(** Line 377:
    [!stage.completed && idx === order.stages.findIndex(s => !s.completed)] *)
Definition isCurrent (o : Order) (idx : nat) (stage : Stage) : bool :=
  negb (completed stage) &&
  match current_stage (stages o) with
  | Some (currentIndex, _) => Nat.eqb idx currentIndex
  | None => false
  end.

(** Lines 395-403: "Mark as Done" is rendered on the stage at [idx] when
    [isCurrent && stage.name === 'Confirmed Received']. *)
Definition markDoneShown (o : Order) (idx : nat) : bool :=
  match stages o !! idx with
  | Some stage => isCurrent o idx stage && is_string (name stage) "Confirmed Received"
  | None => false
  end.

(** A click on "Mark as Done" at [idx]: [advanceStage] runs if the button
    is there. *)
Definition clickMarkDone (pg : Page) (idx : nat) (now : string) : option UpdateRequest :=
  match order pg with
  | Some o => if markDoneShown o idx then advanceStage pg now else None
  | None => None
  end.

(** What the user, or the change feed, can make the page do. *)
Inductive click :=
| Refresh
| MarkDone (idx : nat) (now : string) (write_ok : bool)
| ConfirmReceived (now : string) (write_ok : bool).

Definition press (st : list Row * Page) (c : click) : list Row * Page :=
  match c with
  | Refresh => step Fetch st
  | MarkDone idx now write_ok =>
      match clickMarkDone (snd st) idx now with
      | Some _ => step (Advance now write_ok) st
      | None => st
      end
  | ConfirmReceived now write_ok =>
      match clickConfirmReceived (snd st) now with
      | Sends _ => step (Confirm now write_ok) st
      | Returns | Throws => st
      end
  end.

(** The stage names are those of the default workflow, in order. *)
Definition default_names (o : Order) : Prop :=
  name <$> stages o = name <$> default_stages "".

End Buttons.

(** ** The discount code of the checkout page (src/pages/Checkout.tsx) *)

Module Discount.

Section Runtime.

(** [String.prototype.trim] and the product [x * 0.1] of two doubles, both
    the runtime's. *)
Variable trim : string -> string.
Variable tenth : Q -> Q.

(** [discountCode] and [appliedDiscount] of the component. *)
Record Form := mkForm {
  discountCode : string;
  appliedDiscount : Q
}.

(** [useState('')], [useState<number>(0)] *)
Definition initial : Form := mkForm "" 0%Q.

(** What [handlePaste] finds: no clipboard API, a read that throws, or a
    text. *)
Inductive clipboard :=
| Unsupported
| ReadFails
| Holds (text : string).

(** Lines 93-110. *)
Definition handlePaste (subtotal : Q) (c : clipboard) (f : Form) : Form :=
  match c with
  | Unsupported | ReadFails => f
  | Holds text =>
      let trimmedCode := trim text in
      mkForm trimmedCode
             (if String.eqb trimmedCode "SAVE10" then tenth subtotal else 0%Q)
  end.

(** The two controls: the text field ([onChange] sets the code only) and
    the "Paste" button. *)
Inductive input :=
| TypeCode (text : string)
| Paste (c : clipboard).

Definition react (subtotal : Q) (f : Form) (i : input) : Form :=
  match i with
  | TypeCode text => mkForm text (appliedDiscount f)
  | Paste c => handlePaste subtotal c f
  end.

(** A paste that finds the code, once trimmed. *)
Definition pastes_code (i : input) : Prop :=
  match i with
  | Paste (Holds text) => trim text = "SAVE10"
  | _ => False
  end.

End Runtime.

End Discount.

(** ** Editing the tiers of a product (src/pages/AdminDashboard.tsx) *)

Module Admin.

(** [interface PricingTier]: the price is the text of the input field. *)
Record PricingTier := mkPricingTier {
  min_quantity : Z;
  price : string
}.

(** [updateTier]'s [field] and [value] together. *)
Inductive change :=
| SetMinQuantity (n : Z)
| SetPrice (text : string).

(** Lines 227-229: [[...prev, { min_quantity: 0, price: '' }]] *)
Definition addTier (prev : list PricingTier) : list PricingTier :=
  (prev ++ [mkPricingTier 0 ""])%list.

(** [prev.filter((_, i) => i !== index)], counting from [i]. *)
Fixpoint filter_out_index (index i : nat) (prev : list PricingTier) : list PricingTier :=
  match prev with
  | [] => []
  | tier :: rest =>
      if Nat.eqb i index then filter_out_index index (S i) rest
      else tier :: filter_out_index index (S i) rest
  end.

(** Lines 231-233. *)
Definition removeTier (index : nat) (prev : list PricingTier) : list PricingTier :=
  filter_out_index index 0 prev.

Definition apply_change (c : change) (tier : PricingTier) : PricingTier :=
  match c with
  | SetMinQuantity n => mkPricingTier n (price tier)
  | SetPrice text => mkPricingTier (min_quantity tier) text
  end.

(** [prev.map((tier, i) => i === index ? { ...tier, [field]: value } : tier)],
    counting from [i]. *)
Fixpoint map_at_index (index i : nat) (c : change) (prev : list PricingTier)
    : list PricingTier :=
  match prev with
  | [] => []
  | tier :: rest =>
      (if Nat.eqb i index then apply_change c tier else tier)
      :: map_at_index index (S i) c rest
  end.

(** Lines 235-237. *)
Definition updateTier (index : nat) (c : change) (prev : list PricingTier)
    : list PricingTier :=
  map_at_index index 0 c prev.

(** The tier as the product page reads it back from the store. *)
Definition stored (tier : PricingTier) : Product.ProductTier :=
  Product.mkProductTier (min_quantity tier) (Price.PString (price tier)).

End Admin.

(** ** Notifications (the notifications context, after the checkout page in
    src/pages/Checkout.tsx) *)

Module Notices.

(** [interface Notification] *)
Record Notification := mkNotification {
  id : Z;
  user_id : string;
  title : string;
  message : string;
  read : bool;
  created_at : string
}.

(** [{ ...n, read: true }] *)
Definition as_read (n : Notification) : Notification :=
  mkNotification (id n) (user_id n) (title n) (message n) true (created_at n).

(** [notifications.filter(n => !n.read).length] *)
Definition unreadCount (notifications : list Notification) : nat :=
  length (filter (fun n => read n = false) notifications).

(** [markAsRead]: the update is sent; when the store accepts it the local
    list is mapped, [n.id === id ? { ...n, read: true } : n]; when it
    refuses, the list is left alone. *)
Definition markAsRead (target : Z) (write_ok : bool)
    (notifications : list Notification) : list Notification :=
  if write_ok
  then (fun n => if Z.eqb (id n) target then as_read n else n) <$> notifications
  else notifications.

(** [markAllRead]: the ids the update is sent for, if it is sent at all
    ([unreadIds.length === 0] returns at once), and the local list
    afterwards. *)
Definition markAllRead (write_ok : bool) (notifications : list Notification)
    : option (list Z) * list Notification :=
  let unreadIds := id <$> filter (fun n => read n = false) notifications in
  match unreadIds with
  | [] => (None, notifications)
  | _ => (Some unreadIds,
          if write_ok then as_read <$> notifications else notifications)
  end.

End Notices.

(** ** The price of an order line on the tracking page
    (src/pages/TrackOrder.tsx, lines 107-129) *)

Module Lines.
Import Price.

(** Lines 116-122.  [productPrice] is [product?.price] ([PUndefined] when
    the product is not found); [variantPrice] is [None] for a line without
    [variant_id] and otherwise [variant?.price]:
<<
    itemPrice = typeof product?.price === 'string'
      ? parseFloat(product.price.replace(/[^\d.]/g, ''))
      : (product?.price as number) || 0;
    if (item.variant_id) {
      itemPrice = typeof variant?.price === 'string'
        ? parseFloat(variant.price.replace(/[^\d.]/g, ''))
        : (variant?.price as number) || itemPrice;
    }
>>
    [None] is NaN. *)
Definition orderLinePrice (productPrice : RawPrice) (variantPrice : option RawPrice)
    : option Q :=
  let itemPrice := enrichedItemPrice productPrice in
  match variantPrice with
  | None => itemPrice
  | Some (PString s) => parseFloat (strip_non_numeric s)
  | Some (PNumber q) => if Qeq_bool q 0 then itemPrice else Some q
  | Some PUndefined => itemPrice
  end.

End Lines.

(* ================================================================== *)
(** * Part II: properties                                              *)
(* ================================================================== *)

Import Price JS Track Says.

(** ** Pricing *)

Lemma getUnitPrice_find base q tiers :
  getUnitPrice (mkCartItem base q (Some tiers)) =
  match find_first (fun t => min_quantity t <=? q) tiers with
  | Some tier => tier_price tier
  | None => base
  end.
Proof. unfold getUnitPrice; simpl. destruct tiers; reflexivity. Qed.

Lemma find_first_split {A} (p : A -> bool) l :
  match find_first p l with
  | Some x => exists before after,
      l = (before ++ x :: after)%list /\ Forall (fun y => p y = false) before /\ p x = true
  | None => Forall (fun y => p y = false) l
  end.
Proof.
  induction l as [|a l IH]; simpl.
  - constructor.
  - destruct (p a) eqn:Ha.
    + exists [], l. repeat split; [constructor | exact Ha].
    + destruct (find_first p l) as [x|].
      * destruct IH as (b & c & -> & Hb & Hx).
        exists (a :: b), c. repeat split; [constructor; assumption | exact Hx].
      * constructor; assumption.
Qed.

Lemma getUnitPrice_first base q tiers :
  first_qualifying base tiers q (getUnitPrice (mkCartItem base q (Some tiers))).
Proof.
  rewrite getUnitPrice_find.
  pose proof (find_first_split (fun t => min_quantity t <=? q) tiers) as H.
  destruct (find_first _ tiers) as [x|].
  - destruct H as (b & c & -> & Hb & Hx). left. exists b, x, c.
    repeat split; [| lia].
    eapply List.Forall_impl; [| exact Hb]. simpl. intros t Ht. lia.
  - right. split; [| reflexivity].
    eapply List.Forall_impl; [| exact H]. simpl. intros t Ht. lia.
Qed.

Lemma first_is_largest_when_descending base q tiers p :
  descending tiers -> first_qualifying base tiers q p -> largest_qualifying base tiers q p.
Proof.
  intros Hs [(b & t & c & -> & Hb & Ht & ->) | [Hall ->]].
  - left. exists t. repeat split; [apply in_or_app; right; left; reflexivity | exact Ht |].
    intros t' Hin Hq. apply in_app_or in Hin. destruct Hin as [Hin | [<- | Hin]].
    + rewrite List.Forall_forall in Hb. specialize (Hb _ Hin). lia.
    + lia.
    + unfold descending in Hs. apply StronglySorted_app_1_r in Hs.
      apply StronglySorted_inv in Hs. destruct Hs as [_ Hs].
      rewrite List.Forall_forall in Hs. exact (Hs _ Hin).
  - right. split; [| reflexivity].
    intros t Hin. rewrite List.Forall_forall in Hall. exact (Hall _ Hin).
Qed.

(** C1 fails as stated.  With the tiers stored as [{5, 90}; {10, 80}] and a
    base price of 100, a quantity of 10 is charged 90: [find] stops at the
    first tier that qualifies, which is not the one with the largest
    threshold. *)
Lemma getUnitPrice_ascending_tiers_not_largest :
  getUnitPrice (mkCartItem 100 10 (Some [mkTier 5 90; mkTier 10 80])) = 90%Q /\
  ~ largest_qualifying 100 [mkTier 5 90; mkTier 10 80] 10
      (getUnitPrice (mkCartItem 100 10 (Some [mkTier 5 90; mkTier 10 80]))).
Proof.
  split; [reflexivity |].
  change (getUnitPrice _) with 90%Q.
  intros [(t & Hin & Hq & Hmax & Hp) | [Hnone _]].
  - destruct Hin as [<- | [<- | []]]; simpl in *.
    + specialize (Hmax (mkTier 10 80)). simpl in Hmax.
      assert (10 <= 5) by (apply Hmax; [right; left; reflexivity | lia]). lia.
    + discriminate Hp.
  - specialize (Hnone (mkTier 5 90) (or_introl eq_refl)). simpl in Hnone. lia.
Qed.

(** C1, amended.  [getUnitPrice] returns the price of the first tier, in
    stored order, whose [min_quantity] is at most the quantity, and the base
    price if there is none; when the tiers are stored by descending
    [min_quantity] that tier is the qualifying one with the largest
    threshold.  For [{5, 90}; {10, 80}] and base 100: 1 gives 100, 5 gives
    90, 9 gives 90 and 10 gives 90; stored as [{10, 80}; {5, 90}], 10 gives
    80. *)
Theorem getUnitPrice_first_qualifying_tier base q tiers :
  first_qualifying base tiers q (getUnitPrice (mkCartItem base q (Some tiers)))
  /\ (descending tiers ->
      largest_qualifying base tiers q (getUnitPrice (mkCartItem base q (Some tiers))))
  /\ getUnitPrice (mkCartItem base q None) = base
  /\ getUnitPrice (mkCartItem 100 1 (Some [mkTier 5 90; mkTier 10 80])) = 100%Q
  /\ getUnitPrice (mkCartItem 100 5 (Some [mkTier 5 90; mkTier 10 80])) = 90%Q
  /\ getUnitPrice (mkCartItem 100 9 (Some [mkTier 5 90; mkTier 10 80])) = 90%Q
  /\ getUnitPrice (mkCartItem 100 10 (Some [mkTier 5 90; mkTier 10 80])) = 90%Q
  /\ getUnitPrice (mkCartItem 100 10 (Some [mkTier 10 80; mkTier 5 90])) = 80%Q.
Proof.
  split; [apply getUnitPrice_first |].
  split; [| repeat split].
  intros Hs. apply first_is_largest_when_descending; [exact Hs | apply getUnitPrice_first].
Qed.

Lemma getUnitPrice_first_qualifying_tier_witness :
  descending [mkTier 10 80; mkTier 5 90] /\
  largest_qualifying 100 [mkTier 10 80; mkTier 5 90] 10
    (getUnitPrice (mkCartItem 100 10 (Some [mkTier 10 80; mkTier 5 90]))).
Proof.
  assert (Hd : descending [mkTier 10 80; mkTier 5 90]).
  { repeat constructor; simpl; lia. }
  split; [exact Hd |].
  exact (proj1 (proj2 (getUnitPrice_first_qualifying_tier
                         100 10 [mkTier 10 80; mkTier 5 90])) Hd).
Defined.

Lemma strip_drop_prefix pat : forall s,
  String.prefix pat s = true -> strip_non_numeric pat = "" ->
  strip_non_numeric (drop_chars (String.length pat) s) = strip_non_numeric s.
Proof.
  induction pat as [|a pat IH]; intros s Hp Hs; simpl.
  - reflexivity.
  - destruct s as [|b s]; simpl in Hp; [discriminate |].
    destruct (ascii_dec a b) as [<- |]; [| discriminate].
    simpl in Hs. destruct (is_digit a || is_dot a) eqn:E; [discriminate |].
    simpl. rewrite E. apply IH; assumption.
Qed.

(** Removing the first "KES " before stripping changes nothing: its four
    characters would be stripped anyway. *)
Lemma strip_remove_first_KES s :
  strip_non_numeric (remove_first "KES " s) = strip_non_numeric s.
Proof.
  induction s as [|c s IH].
  - reflexivity.
  - unfold remove_first; fold remove_first.
    destruct (String.prefix "KES " (String c s)) eqn:Hp.
    + apply (strip_drop_prefix "KES "); [exact Hp | reflexivity].
    + simpl. rewrite IH. reflexivity.
Qed.

Lemma span_digits_head_not_digit t :
  head_not_digit t -> span_digits t = ([], t).
Proof. destruct t as [|c t]; simpl; [reflexivity | intros ->; reflexivity]. Qed.

Lemma strip_no_digit s :
  has_no_digit s ->
  head_not_digit (strip_non_numeric s) /\
  (forall c r, strip_non_numeric s = String c r -> head_not_digit r).
Proof.
  unfold has_no_digit. induction s as [|a s IH]; simpl; intros H.
  - split; [exact I | discriminate].
  - apply List.Forall_cons_iff in H. destruct H as [Ha Hs].
    destruct (IH Hs) as [IH1 IH2]. rewrite Ha. simpl.
    destruct (is_dot a).
    + split; [exact Ha |]. intros c r [= _ <-]. exact IH1.
    + split; assumption.
Qed.

Lemma parseFloat_no_digit s :
  has_no_digit s -> parseFloat (strip_non_numeric s) = None.
Proof.
  intros H. destruct (strip_no_digit s H) as [H1 H2].
  unfold parseFloat. rewrite (span_digits_head_not_digit _ H1).
  destruct (strip_non_numeric s) as [|c r] eqn:E; [reflexivity |].
  rewrite (span_digits_head_not_digit r (H2 c r eq_refl)). simpl.
  destruct (is_dot c); reflexivity.
Qed.

(** C6.  On a text, [parsePriceToNumber] reads the decimal at the front of
    what is left once every character that is neither a digit nor a dot is
    removed, and yields 0 when nothing can be read there; it never throws
    (it is a total function).  "KES 1,200.50" gives 1200.50, and a text
    without any digit, such as "n/a", gives 0. *)
Theorem parsePriceToNumber_text s :
  parsePriceToNumber (PString s) = or_zero (parseFloat (strip_non_numeric s))
  /\ (has_no_digit s -> parsePriceToNumber (PString s) = 0%Q)
  /\ parsePriceToNumber (PString "KES 1,200.50") = (2401 # 2)%Q
  /\ (parsePriceToNumber (PString "KES 1,200.50") == 1200.50)%Q
  /\ parsePriceToNumber (PString "n/a") = 0%Q.
Proof.
  assert (E : parsePriceToNumber (PString s)
              = or_zero (parseFloat (strip_non_numeric s))).
  { simpl. rewrite strip_remove_first_KES. reflexivity. }
  split; [exact E |].
  split; [| repeat split].
  intros H. rewrite E, (parseFloat_no_digit s H). reflexivity.
Qed.

Lemma parsePriceToNumber_text_witness :
  has_no_digit "n/a" /\ parsePriceToNumber (PString "n/a") = 0%Q.
Proof.
  assert (H : has_no_digit "n/a") by (repeat constructor).
  split; [exact H |].
  exact (proj1 (proj2 (parsePriceToNumber_text "n/a")) H).
Defined.

(** The value 1200.50 is a double: 2401 * 2^-1, with 2401 below 2^53, so
    the rounding that the exact model leaves out does not touch it. *)
Remark price_example_is_a_double :
  (parsePriceToNumber (PString "KES 1,200.50") == inject_Z 2401 / inject_Z (2 ^ 1))%Q
  /\ 2401 < 2 ^ 53.
Proof. split; [reflexivity | lia]. Qed.

(** The inline variant of the tracking page (line 116) strips in the same
    way but has no fallback on its textual branch: a text without digits
    gives NaN there. *)
Remark enrichedItemPrice_text :
  enrichedItemPrice (PString "KES 1,200.50") = Some (2401 # 2)%Q
  /\ enrichedItemPrice (PString "n/a") = None.
Proof. split; reflexivity. Qed.

(** ** The stage parser *)

Lemma js_or_text (t : string) : js_or (VString t) (VString "") = VString t.
Proof. destruct t; reflexivity. Qed.

Lemma conform_default_objects created :
  conform_all (VArray (default_objects created)) = Some (default_stages created).
Proof.
  unfold conform_all, default_objects, default_stages. cbn.
  rewrite js_or_text. reflexivity.
Qed.

Lemma single_delivery_one fields :
  own_property "stage" fields = VString "delivery" ->
  single_delivery (VArray [VObject fields]) = Some (Some (VObject fields)).
Proof. intros H. unfold single_delivery. cbn. rewrite H. reflexivity. Qed.

Lemma delivery_info_object fields :
  delivery_info (VObject fields)
  = Some (js_or (own_property "address" fields) (VString ""),
          js_or (own_property "instructions" fields) (VString "")).
Proof. reflexivity. Qed.

Lemma try_block_delivery raw created fields :
  parse_or_empty raw = Some (VArray [VObject fields]) ->
  own_property "stage" fields = VString "delivery" ->
  try_block raw created =
  Done (default_stages created)
       (js_or (own_property "address" fields) (VString ""))
       (js_or (own_property "instructions" fields) (VString "")).
Proof.
  intros Hraw Htag. unfold try_block.
  rewrite Hraw, (single_delivery_one fields Htag), delivery_info_object,
    conform_default_objects.
  reflexivity.
Qed.

Lemma try_block_not_a_list raw created :
  undecodable raw -> exists a i, try_block raw created = Thrown a i
                                 \/ try_block raw created = Done (default_stages created) a i.
Proof.
  destruct raw as [|[v|]]; simpl; intros H; [contradiction | |].
  2:{ exists (VString ""), (VString ""). left. reflexivity. }
  destruct v as [| |b|q|s|items|fields]; try contradiction;
    try (exists (VString ""), (VString ""); left; reflexivity).
  (* an object: it can only pass for a single delivery record *)
  { (* a text: with or without length 1, [find] is missing *)
    exists (VString ""), (VString ""). left.
    destruct s as [|c s]; [reflexivity |].
    unfold try_block, parse_or_empty, single_delivery. cbn.
    destruct (Qeq_bool _ _); reflexivity. }
  unfold try_block, parse_or_empty, single_delivery.
  cbn -[conform_all default_objects delivery_info].
  destruct (is_one (own_property "length" fields));
    cbn -[conform_all default_objects delivery_info].
  2:{ exists (VString ""), (VString ""). left. reflexivity. }
  destruct (member (own_property "0" fields) "stage") as [tag|] eqn:Htag;
    cbn -[conform_all default_objects delivery_info].
  2:{ exists (VString ""), (VString ""). left. reflexivity. }
  destruct (is_string tag "delivery");
    cbn -[conform_all default_objects delivery_info].
  2:{ exists (VString ""), (VString ""). left. reflexivity. }
  destruct (delivery_info (own_property "0" fields)) as [[a i]|].
  2:{ exists (VString ""), (VString ""). left. reflexivity. }
  rewrite conform_default_objects. exists a, i. right. reflexivity.
Qed.

(** C2 fails as stated for an absent value.  [data.stages || '[]'] turns
    it into the empty list, which goes through the [try] block without a
    throw: the stage list is empty, not the default workflow. *)
Lemma parse_stages_absent_is_empty :
  parse_stages RawAbsent "2025-01-01T00:00:00+00:00"
  = mkParsed [] (VString "") (VString "")
  /\ parsedStages (parse_stages RawAbsent "2025-01-01T00:00:00+00:00")
     <> default_stages "2025-01-01T00:00:00+00:00".
Proof. split; [reflexivity | discriminate]. Qed.

(** C2, amended.  When the stored text fails to decode, or decodes to
    something that is not a list, the parser returns the default six-stage
    workflow, "Order Placed" completed at the creation time and the five
    later stages incomplete; being a total function it raises nothing.  An
    absent value is read as the empty list and gives an empty stage list. *)
Theorem parse_stages_undecodable raw created :
  (undecodable raw ->
   parsedStages (parse_stages raw created) = default_stages created)
  /\ parse_stages (RawText None) created
     = mkParsed (default_stages created) (VString "") (VString "")
  /\ parse_stages RawAbsent created = mkParsed [] (VString "") (VString "")
  /\ default_stages created
     = mkStage (VString "Order Placed") (VString created) true
       :: map (fun n => mkStage (VString n) (VString "") false)
            ["Payment Pending"; "Processing"; "Shipped"; "Delivered";
             "Confirmed Received"].
Proof.
  split; [| repeat split].
  intros H. unfold parse_stages.
  destruct (try_block_not_a_list raw created H) as (a & i & [-> | ->]); reflexivity.
Qed.

Lemma parse_stages_undecodable_witness :
  undecodable (RawText (Some VNull)) /\
  parsedStages (parse_stages (RawText (Some VNull)) "2025-01-01T00:00:00+00:00")
  = default_stages "2025-01-01T00:00:00+00:00".
Proof.
  split; [exact I |].
  exact (proj1 (parse_stages_undecodable (RawText (Some VNull))
                  "2025-01-01T00:00:00+00:00") I).
Defined.

(** C5.  When the stored value decodes to a list of exactly one entry whose
    [stage] is "delivery", the parser takes [address || ''] and
    [instructions || ''] of that entry as delivery information and puts the
    default six-stage workflow, first stage completed at the creation time,
    in place of the list.  For [{stage: "delivery", address: "X"}] the
    address is "X". *)
Theorem parse_stages_single_delivery raw created fields :
  parse_or_empty raw = Some (VArray [VObject fields]) ->
  own_property "stage" fields = VString "delivery" ->
  parse_stages raw created =
    mkParsed (default_stages created)
             (js_or (own_property "address" fields) (VString ""))
             (js_or (own_property "instructions" fields) (VString ""))
  /\ parse_stages
       (RawText (Some (VArray [VObject [("stage", VString "delivery");
                                        ("address", VString "X")]]))) created
     = mkParsed (default_stages created) (VString "X") (VString "").
Proof.
  intros Hraw Htag. split.
  - unfold parse_stages. rewrite (try_block_delivery raw created fields Hraw Htag).
    reflexivity.
  - unfold parse_stages.
    rewrite (try_block_delivery
               (RawText (Some (VArray [VObject [("stage", VString "delivery");
                                                ("address", VString "X")]])))
               created
               [("stage", VString "delivery"); ("address", VString "X")]
               eq_refl eq_refl).
    reflexivity.
Qed.

Lemma parse_stages_single_delivery_witness :
  parse_stages
    (RawText (Some (VArray [VObject [("stage", VString "delivery");
                                     ("address", VString "X")]])))
    "2025-01-01T00:00:00+00:00"
  = mkParsed (default_stages "2025-01-01T00:00:00+00:00") (VString "X") (VString "").
Proof.
  exact (proj1 (parse_stages_single_delivery
                  (RawText (Some (VArray [VObject [("stage", VString "delivery");
                                                   ("address", VString "X")]])))
                  "2025-01-01T00:00:00+00:00"
                  [("stage", VString "delivery"); ("address", VString "X")]
                  eq_refl eq_refl)).
Defined.

(** C9.  The row that checkout inserts holds, as its stages, the text of a
    single record tagged "delivery"; the parser therefore takes the
    single-delivery branch on it and returns the default six-stage workflow
    together with exactly the address and instructions typed at checkout. *)
Theorem placed_order_parses_to_default user info insert_ok new_id created row :
  Checkout.handlePlaceOrder user info insert_ok new_id created = Some row ->
  row_stages row = JSON_stringify (Checkout.deliveryStages info)
  /\ single_delivery (Checkout.deliveryStages info)
     = Some (Some (VObject [("stage", VString "delivery");
                            ("address", VString (Checkout.address info));
                            ("instructions", VString (Checkout.instructions info));
                            ("status", VString "pending")]))
  /\ parse_stages (row_stages row) (row_created_at row)
     = mkParsed (default_stages created)
                (VString (Checkout.address info))
                (VString (Checkout.instructions info)).
Proof.
  unfold Checkout.handlePlaceOrder. intros H.
  destruct user as [u|]; [| discriminate].
  destruct (negb (Checkout.address info =? "")%string && insert_ok); [| discriminate].
  injection H as <-. cbn [row_stages row_created_at].
  split; [reflexivity |]. split; [reflexivity |].
  unfold parse_stages, Checkout.deliveryStages, JSON_stringify.
  rewrite (try_block_delivery
             (RawText (Some (VArray [VObject
                [("stage", VString "delivery");
                 ("address", VString (Checkout.address info));
                 ("instructions", VString (Checkout.instructions info));
                 ("status", VString "pending")]])))
             created
             [("stage", VString "delivery");
              ("address", VString (Checkout.address info));
              ("instructions", VString (Checkout.instructions info));
              ("status", VString "pending")]
             eq_refl eq_refl).
  cbn [own_property String.eqb Ascii.eqb Bool.eqb].
  rewrite !js_or_text. reflexivity.
Qed.

Lemma placed_order_parses_to_default_witness :
  parse_stages
    (JSON_stringify (Checkout.deliveryStages
                       (Checkout.mkDeliveryInfo "Plot 7, Kiambu Road" "Call on arrival")))
    "2025-01-01T00:00:00+00:00"
  = mkParsed (default_stages "2025-01-01T00:00:00+00:00")
             (VString "Plot 7, Kiambu Road") (VString "Call on arrival").
Proof.
  exact (proj2 (proj2 (placed_order_parses_to_default
     (Some (mkUser "u1"))
     (Checkout.mkDeliveryInfo "Plot 7, Kiambu Road" "Call on arrival")
     true "o1" "2025-01-01T00:00:00+00:00" _ eq_refl))).
Defined.

(** ** Writing and reading back *)

Lemma js_or_idem (t : jsval) :
  js_or (js_or t (VString "")) (VString "") = js_or t (VString "").
Proof. unfold js_or. destruct (truthy t) eqn:E; [rewrite E |]; reflexivity. Qed.

Lemma conform_conformant s y : conform s = Some y -> conformant y.
Proof.
  unfold conform. destruct s; cbn; try discriminate; intros [= <-];
    try (split; reflexivity).
  split; cbn; [| apply js_or_idem].
  unfold js_or.
  destruct (truthy (own_property "name" fields)) eqn:E1; cbn.
  - rewrite E1. exact E1.
  - destruct (truthy (own_property "stage" fields)) eqn:E2;
      [rewrite E2; congruence | reflexivity].
Qed.

Lemma default_stages_conformant created : Forall conformant (default_stages created).
Proof.
  unfold default_stages.
  repeat (apply Forall_cons; split; [split; cbn; [reflexivity | try reflexivity] |]).
  - apply js_or_text.
  - apply Forall_nil. exact I.
Qed.

Lemma parse_stages_conformant raw created :
  Forall conformant (parsedStages (parse_stages raw created)).
Proof.
  assert (Hall : forall v st, conform_all v = Some st -> Forall conformant st).
  { intros v st. destruct v; cbn; try discriminate. intros H.
    apply mapM_Some_1 in H. induction H; constructor; eauto using conform_conformant. }
  unfold parse_stages.
  destruct (try_block raw created) as [st a i | a i] eqn:E;
    cbn; [| apply default_stages_conformant].
  unfold try_block in E.
  repeat match type of E with
         | match ?x with _ => _ end = _ => destruct x eqn:?; try discriminate
         end;
    injection E as <- _ _; eauto.
Qed.

Lemma conform_stage_object s : conformant s -> conform (stage_object s) = Some s.
Proof.
  intros [Hn Ht]. destruct s as [n t c]; cbn in *.
  unfold js_or at 2. rewrite Hn. unfold js_or at 1. rewrite Hn, Ht.
  destruct c; reflexivity.
Qed.

Lemma find_address_stage_objects l :
  find_address (stage_object <$> l) = Some None.
Proof. induction l as [|s l IH]; cbn; [reflexivity | exact IH]. Qed.

Lemma single_delivery_stage_objects l :
  single_delivery (VArray (stage_object <$> l)) = Some None.
Proof.
  destruct l as [|s l]; [reflexivity |].
  unfold single_delivery. cbn -[is_one].
  destruct (is_one _); reflexivity.
Qed.

(** What [JSON.stringify] wrote, the parser reads back as it was (and finds
    no delivery information in it). *)
Lemma parse_stringify_stages l created :
  Forall conformant l ->
  parse_stages (stringify_stages l) created = mkParsed l (VString "") (VString "").
Proof.
  intros H. unfold parse_stages, try_block, stringify_stages, JSON_stringify.
  cbn [parse_or_empty]. rewrite single_delivery_stage_objects.
  cbn [find_delivery_stage conform_all]. rewrite find_address_stage_objects.
  rewrite (mapM_fmap_Forall_Some conform stage_object l).
  - reflexivity.
  - eapply List.Forall_impl; [| exact H]. apply conform_stage_object.
Qed.

(** ** The query and the store *)

Lemma select_single_row_id db oid data :
  select_single db oid = Some data -> row_id data = oid.
Proof.
  unfold select_single. intros H.
  destruct (filter (fun r => row_id r = oid) db) as [|r [|? ?]] eqn:E; try discriminate.
  injection H as <-.
  assert (Hin : r ∈ filter (fun r => row_id r = oid) db) by (rewrite E; left).
  apply list_elem_of_filter in Hin. tauto.
Qed.

Lemma queryFn_Fetched db pg o :
  queryFn db pg = Fetched o ->
  exists oid u data,
    orderId pg = Some oid /\ session pg = true /\ user pg = Some u /\
    select_single db oid = Some data /\ row_id data = oid /\
    row_user_id data = uid u /\ o = order_of_row data.
Proof.
  unfold queryFn. intros H.
  destruct (orderId pg) as [oid|]; [| discriminate].
  destruct (String.eqb oid ""); [discriminate |].
  destruct (session pg); [| discriminate]. cbn in H.
  destruct (user pg) as [u|]; [| discriminate].
  destruct (select_single db oid) as [data|] eqn:Hs; [| discriminate].
  destruct (String.eqb (row_user_id data) (uid u)) eqn:Hu; [| discriminate].
  cbn in H. injection H as <-. apply String.eqb_eq in Hu.
  exists oid, u, data. repeat split; try assumption.
  eapply select_single_row_id; eassumption.
Qed.

Lemma queryFn_ignores_order db a b c o1 o2 :
  queryFn db (mkPage a b c o1) = queryFn db (mkPage a b c o2).
Proof. reflexivity. Qed.

Lemma updated_row_id req r : row_id (updated_row req r) = row_id r.
Proof. unfold updated_row. destruct (matches req r); reflexivity. Qed.

Lemma updated_row_user_id req r : row_user_id (updated_row req r) = row_user_id r.
Proof. unfold updated_row. destruct (matches req r); reflexivity. Qed.

Lemma filter_apply_update req db oid :
  filter (fun r => row_id r = oid) (apply_update req db)
  = updated_row req <$> filter (fun r => row_id r = oid) db.
Proof.
  unfold apply_update.
  induction db as [|r db IH]; [reflexivity |].
  rewrite fmap_cons, !filter_cons, updated_row_id.
  destruct (decide (row_id r = oid)); rewrite IH; reflexivity.
Qed.

Lemma select_single_apply_update req db oid :
  select_single (apply_update req db) oid
  = updated_row req <$> select_single db oid.
Proof.
  unfold select_single. rewrite filter_apply_update.
  destruct (filter (fun r => row_id r = oid) db) as [|r [|? ?]]; reflexivity.
Qed.

(** An update never turns a successful query into a rejected one: it
    changes neither [id] nor [user_id]. *)
Lemma queryFn_apply_update req db pg o :
  queryFn db pg = Fetched o ->
  exists data, select_single db (id o) = Some data /\ o = order_of_row data /\
    queryFn (apply_update req db) pg = Fetched (order_of_row (updated_row req data)).
Proof.
  intros H. destruct (queryFn_Fetched db pg o H)
    as (oid & u & data & Hoid & Hses & Hu & Hsel & Hid & Huid & ->).
  exists data. cbn [order_of_row id]. rewrite Hid.
  split; [exact Hsel |]. split; [reflexivity |].
  unfold queryFn in *. rewrite Hoid, Hses, Hu in *.
  destruct (String.eqb oid ""); [discriminate |]. cbn.
  rewrite select_single_apply_update, Hsel. cbn.
  rewrite updated_row_user_id, Huid, String.eqb_refl. reflexivity.
Qed.

Lemma refetch_in_sync db pg :
  (forall o, order pg = Some o -> exists o', queryFn db pg = Fetched o') ->
  in_sync (db, refetch db pg).
Proof.
  intros H o. unfold refetch. cbn [fst snd].
  destruct (queryFn db pg) as [e | o'] eqn:E.
  - intros Ho. destruct (H o Ho) as [o' Ho']. discriminate.
  - cbn. intros [= <-]. destruct pg. exact E.
Qed.

Lemma send_in_sync req write_ok st : in_sync st -> in_sync (send req write_ok st).
Proof.
  intros H. unfold send. destruct write_ok; [| exact H].
  apply refetch_in_sync. intros o Ho. specialize (H o Ho).
  destruct (queryFn_apply_update req _ _ _ H) as (data & _ & _ & Hq). eauto.
Qed.

Lemma step_in_sync e st : in_sync st -> in_sync (step e st).
Proof.
  intros H. destruct e as [|now ok|now ok]; cbn.
  - apply refetch_in_sync. intros o Ho. exists o. exact (H o Ho).
  - destruct (advanceStage (snd st) now); [apply send_in_sync |]; exact H.
  - destruct (confirmReceipt (snd st) now); try exact H. apply send_in_sync, H.
Qed.

Lemma run_in_sync es : forall st, in_sync st -> in_sync (run es st).
Proof.
  unfold run. induction es as [|e es IH]; intros st H; cbn; [exact H |].
  apply IH, step_in_sync, H.
Qed.

(** In a state in sync, loading again changes nothing. *)
Lemma refetch_same st o :
  in_sync st -> order (snd st) = Some o -> refetch (fst st) (snd st) = snd st.
Proof.
  intros H Ho. unfold refetch. rewrite (H o Ho).
  destruct st as [db [a b c d]]. cbn in *. rewrite Ho. reflexivity.
Qed.

(** The loaded order belongs to the user of the page, and its stages are
    as the parser leaves them. *)
Lemma in_sync_order st o :
  in_sync st -> order (snd st) = Some o ->
  exists u data, user (snd st) = Some u /\ orderId (snd st) = Some (id o) /\
    uid u = user_id o /\ select_single (fst st) (id o) = Some data /\
    o = order_of_row data /\ Forall conformant (stages o).
Proof.
  intros H Ho. destruct (queryFn_Fetched _ _ _ (H o Ho))
    as (oid & u & data & Hoid & _ & Hu & Hsel & Hid & Huid & ->).
  exists u, data. cbn [order_of_row id user_id stages].
  rewrite Hid. repeat split; try assumption; try congruence.
  apply parse_stages_conformant.
Qed.

(** An accepted update, sent for the loaded order with the stage list [l]:
    the row takes the new status and stages, and the page shows [l]. *)
Lemma send_accepted st o st_new l :
  in_sync st -> order (snd st) = Some o -> Forall conformant l ->
  let req := mkUpdate st_new (stringify_stages l) (orderId (snd st)) (user_id o) in
  send req true st =
    (apply_update req (fst st),
     mkPage (orderId (snd st)) (session (snd st)) (user (snd st))
            (Some (mkOrder (id o) (user_id o) st_new l (created_at o)
                           (VString "") (VString ""))))
  /\ select_single (apply_update req (fst st)) (id o)
     = Some (mkRow (id o) (user_id o) st_new (stringify_stages l) (created_at o)).
Proof.
  intros H Ho Hl req.
  destruct (in_sync_order st o H Ho) as (u & data & Hu & Hoid & Huid & Hsel & Hd & _).
  assert (Hm : matches req data = true).
  { unfold matches, req. cbn. rewrite Hoid.
    rewrite (select_single_row_id _ _ _ Hsel). subst o. cbn.
    rewrite !String.eqb_refl. reflexivity. }
  assert (Hrow : updated_row req data
                 = mkRow (id o) (user_id o) st_new (stringify_stages l) (created_at o)).
  { unfold updated_row. rewrite Hm. subst o. reflexivity. }
  split.
  - unfold send. cbn [fst snd]. f_equal. unfold refetch.
    destruct (queryFn_apply_update req _ _ _ (H o Ho)) as (data' & Hsel' & _ & Hq).
    rewrite Hsel in Hsel'. injection Hsel' as <-.
    rewrite Hq, Hrow. unfold order_of_row. cbn.
    rewrite (parse_stringify_stages l _ Hl). reflexivity.
  - rewrite select_single_apply_update, Hsel. cbn. rewrite Hrow. reflexivity.
Qed.

(** ** advanceStage *)

Lemma advanceStage_sends pg now req :
  advanceStage pg now = Some req ->
  exists o u i cur next,
    order pg = Some o /\ user pg = Some u /\
    current_stage (stages o) = Some (i, cur) /\
    (S i < length (stages o))%nat /\ stages o !! S i = Some next /\
    req = mkUpdate (name next)
                   (stringify_stages (<[i := complete_at now cur]> (stages o)))
                   (orderId pg) (uid u).
Proof.
  unfold advanceStage. intros H.
  destruct (order pg) as [o|]; [| discriminate].
  destruct (user pg) as [u|]; [| discriminate].
  destruct (current_stage (stages o)) as [[i cur]|] eqn:Hc; [| discriminate].
  destruct (Z.of_nat i <? Z.of_nat (length (stages o)) - 1) eqn:Hlt; [| discriminate].
  apply Z.ltb_lt in Hlt.
  destruct (<[i:=complete_at now cur]> (stages o) !! S i) as [next|] eqn:Hn;
    [| discriminate].
  injection H as <-. rewrite list_lookup_insert_ne in Hn by lia.
  exists o, u, i, cur, next. repeat split; try assumption. lia.
Qed.

Lemma advanceStage_current pg o u i cur now :
  order pg = Some o -> user pg = Some u ->
  current_stage (stages o) = Some (i, cur) -> (S i < length (stages o))%nat ->
  exists next, stages o !! S i = Some next /\
    advanceStage pg now
    = Some (mkUpdate (name next)
                     (stringify_stages (<[i := complete_at now cur]> (stages o)))
                     (orderId pg) (uid u)).
Proof.
  intros Ho Hu Hc Hlt. unfold advanceStage. rewrite Ho, Hu, Hc.
  destruct (lookup_lt_is_Some_2 (stages o) (S i) Hlt) as [next Hn].
  exists next. split; [exact Hn |].
  destruct (Z.of_nat i <? Z.of_nat (length (stages o)) - 1) eqn:E;
    [| apply Z.ltb_ge in E; lia].
  rewrite list_lookup_insert_ne by lia. rewrite Hn. reflexivity.
Qed.

Lemma advanceStage_none pg o now :
  order pg = Some o ->
  (current_stage (stages o) = None \/
   exists i cur, current_stage (stages o) = Some (i, cur)
                 /\ (length (stages o) <= S i)%nat) ->
  advanceStage pg now = None.
Proof.
  intros Ho H. unfold advanceStage. rewrite Ho.
  destruct (user pg); [| reflexivity].
  destruct H as [-> | (i & cur & -> & Hle)]; [reflexivity |].
  destruct (Z.of_nat i <? Z.of_nat (length (stages o)) - 1) eqn:E;
    [apply Z.ltb_lt in E; lia | reflexivity].
Qed.

Lemma current_stage_lookup l i cur :
  current_stage l = Some (i, cur) ->
  l !! i = Some cur /\ completed cur = false /\
  (forall j s, l !! j = Some s -> (j < i)%nat -> completed s = true).
Proof.
  unfold current_stage. intros H. apply list_find_Some in H.
  destruct H as (Hi & Hc & Hb). repeat split; try assumption.
  intros j s Hj Hlt. specialize (Hb j s Hj Hlt). destruct (completed s); congruence.
Qed.

Lemma complete_at_conformant l i cur now :
  Forall conformant l -> l !! i = Some cur ->
  Forall conformant (<[i := complete_at now cur]> l).
Proof.
  intros Hl Hi. apply Forall_insert; [exact Hl |].
  rewrite Forall_lookup in Hl. destruct (Hl i cur Hi) as [Hn _].
  split; cbn; [exact Hn | apply js_or_text].
Qed.

(** An accepted [advanceStage] on the loaded order, seen from the page and
    from the store. *)
Lemma step_advance_accepted st o i cur now :
  in_sync st -> order (snd st) = Some o ->
  current_stage (stages o) = Some (i, cur) -> (S i < length (stages o))%nat ->
  exists next, stages o !! S i = Some next /\
    let l := <[i := complete_at now cur]> (stages o) in
    let req := mkUpdate (name next) (stringify_stages l) (Some (id o)) (user_id o) in
    advanceStage (snd st) now = Some req /\
    step (Advance now true) st =
      (apply_update req (fst st),
       mkPage (orderId (snd st)) (session (snd st)) (user (snd st))
              (Some (mkOrder (id o) (user_id o) (name next) l (created_at o)
                             (VString "") (VString "")))) /\
    select_single (apply_update req (fst st)) (id o)
    = Some (mkRow (id o) (user_id o) (name next) (stringify_stages l) (created_at o)).
Proof.
  intros H Ho Hc Hlt.
  destruct (in_sync_order st o H Ho) as (u & data & Hu & Hoid & Huid & _ & _ & Hconf).
  destruct (advanceStage_current (snd st) o u i cur now Ho Hu Hc Hlt) as (next & Hn & Ha).
  exists next. split; [exact Hn |]. intros l req.
  rewrite Hoid, Huid in Ha. fold l in Ha. fold req in Ha.
  split; [exact Ha |].
  assert (Hl : Forall conformant l).
  { apply complete_at_conformant; [exact Hconf |].
    apply (current_stage_lookup _ _ _ Hc). }
  destruct (send_accepted st o (name next) l H Ho Hl) as [Hsend Hrow].
  rewrite Hoid in Hsend, Hrow. fold req in Hsend, Hrow.
  split; [| exact Hrow].
  cbn [step]. rewrite Ha. rewrite Hsend, Hoid. reflexivity.
Qed.

Lemma loaded_in_sync who oid : in_sync (Examples.loaded who oid).
Proof. apply refetch_in_sync. discriminate. Qed.



Lemma last_insert_before (l : list Stage) i x :
  (S i < length l)%nat -> last (<[i := x]> l) = last l.
Proof.
  intros H. rewrite !last_lookup, length_insert.
  apply list_lookup_insert_ne. lia.
Qed.

Lemma last_insert_last (l : list Stage) x :
  l <> [] -> last (<[(length l - 1)%nat := x]> l) = Some x.
Proof.
  intros H. rewrite last_lookup, length_insert.
  replace (Nat.pred (length l)) with (length l - 1)%nat by lia.
  apply list_lookup_insert_eq. destruct l; [congruence | cbn; lia].
Qed.

(** ** confirmReceipt *)

Lemma confirmReceipt_sends pg now req :
  confirmReceipt pg now = Sends req ->
  exists o u final,
    order pg = Some o /\ user pg = Some u /\
    last (stages o) = Some final /\ completed final = false /\
    req = mkUpdate (VString "Confirmed Received")
            (stringify_stages
               (<[(length (stages o) - 1)%nat := complete_at now final]> (stages o)))
            (orderId pg) (uid u).
Proof.
  unfold confirmReceipt. intros H.
  destruct (order pg) as [o|]; [| discriminate].
  destruct (user pg) as [u|]; [| discriminate].
  destruct (last (stages o)) as [final|] eqn:Hl; [| discriminate].
  destruct (completed final) eqn:Hc; [discriminate |].
  injection H as <-. exists o, u, final. repeat split; assumption.
Qed.

(** C10.  [advanceStage] never touches the last stage: the stage list it
    writes ends with the same stage as the one it read, so after an
    [advanceStage], accepted or not, the last stage on the page is as
    before.  Of the two operations only [confirmReceipt] writes a list
    whose last stage it has completed. *)
Theorem advanceStage_never_completes_last st now :
  (forall req, advanceStage (snd st) now = Some req ->
     exists o l, order (snd st) = Some o /\
                 set_stages req = stringify_stages l /\
                 last l = last (stages o))
  /\ (in_sync st -> forall write_ok,
        last (shown (step (Advance now write_ok) st)) = last (shown st))
  /\ (forall req, confirmReceipt (snd st) now = Sends req ->
        exists l final, set_stages req = stringify_stages l /\
                        last l = Some final /\ completed final = true).
Proof.
  split; [| split].
  - intros req H.
    destruct (advanceStage_sends _ _ _ H) as (o & u & i & cur & next & Ho & _ & _ & Hlt & _ & ->).
    exists o, (<[i := complete_at now cur]> (stages o)).
    repeat split; [exact Ho |]. apply last_insert_before, Hlt.
  - intros Hsync write_ok. cbn [step].
    destruct (advanceStage (snd st) now) as [req|] eqn:H; [| reflexivity].
    destruct write_ok; [| reflexivity].
    destruct (advanceStage_sends _ _ _ H) as (o & u & i & cur & next & Ho & _ & Hc & Hlt & _ & _).
    destruct (step_advance_accepted st o i cur now Hsync Ho Hc Hlt)
      as (next' & _ & Ha & Hstep & _).
    rewrite H in Ha. injection Ha as ->.
    cbn [step] in Hstep. rewrite H in Hstep. rewrite Hstep.
    unfold shown. cbn [snd order stages]. rewrite Ho.
    apply last_insert_before, Hlt.
  - intros req H.
    destruct (confirmReceipt_sends _ _ _ H) as (o & u & final & _ & _ & Hl & _ & ->).
    exists (<[(length (stages o) - 1)%nat := complete_at now final]> (stages o)),
           (complete_at now final).
    repeat split. apply last_insert_last. intros E. rewrite E in Hl. discriminate.
Qed.

Lemma advanceStage_never_completes_last_witness :
  last (shown (step (Advance "2025-01-02T09:30:00.000Z" true)
                    (Examples.loaded "u1" "o1")))
  = Some (mkStage (VString "Confirmed Received") (VString "") false).
Proof.
  exact (proj1 (proj2 (advanceStage_never_completes_last
                         (Examples.loaded "u1" "o1") "2025-01-02T09:30:00.000Z"))
               (loaded_in_sync "u1" "o1") true).
Defined.

(** C3 fails as stated.  The loaded order has "Processing" still
    incomplete before its last stage "Delivered"; the button is shown,
    [confirmReceipt] sends its update, and once the store accepts it the
    last stage is completed and the status is "Confirmed Received".  On the
    order as placed, whose last stage is "Confirmed Received", the function
    sends its update as well: the name is no concern of it. *)
Lemma confirmReceipt_with_earlier_stage_incomplete :
  shown (Examples.loaded "u1" "o2") !! 1%nat
  = Some (mkStage (VString "Processing") (VString "") false)
  /\ (exists req,
        confirmReceipt (snd (Examples.loaded "u1" "o2")) "2025-01-03T10:00:00.000Z"
        = Sends req /\
        clickConfirmReceived (snd (Examples.loaded "u1" "o2")) "2025-01-03T10:00:00.000Z"
        = Sends req)
  /\ shown (step (Confirm "2025-01-03T10:00:00.000Z" true) (Examples.loaded "u1" "o2"))
     = [ mkStage (VString "Order Placed") (VString "2025-01-01T08:00:00.000Z") true;
         mkStage (VString "Processing") (VString "") false;
         mkStage (VString "Delivered") (VString "2025-01-03T10:00:00.000Z") true ]
  /\ row_status <$> select_single
        (fst (step (Confirm "2025-01-03T10:00:00.000Z" true) (Examples.loaded "u1" "o2")))
        "o2"
     = Some (VString "Confirmed Received")
  /\ row_status <$> select_single (fst (Examples.loaded "u1" "o2")) "o2"
     = Some (VString "Processing")
  /\ (exists req,
        last (shown (Examples.loaded "u1" "o1"))
        = Some (mkStage (VString "Confirmed Received") (VString "") false) /\
        confirmReceipt (snd (Examples.loaded "u1" "o1")) "2025-01-03T10:00:00.000Z"
        = Sends req).
Proof.
  split; [reflexivity |]. split; [eexists; split; reflexivity |].
  split; [reflexivity |]. split; [reflexivity |]. split; [reflexivity |].
  eexists; split; reflexivity.
Qed.

(** C3, amended.  [confirmReceipt] sends its update exactly when an order
    and a user are there and the last stage is not yet completed; the
    update marks the last stage completed at the current time, leaves every
    other stage as it was and sets the status to "Confirmed Received".
    That the last stage be named "Delivered" is required by the "Confirm
    Received" button, not by the function.  When the last stage is already
    completed, or through the button when it is not named "Delivered",
    nothing is sent and neither the store nor the page changes.  Earlier
    incomplete stages are not looked at. *)
Theorem confirmReceipt_last_stage_guard pg now :
  (forall req, confirmReceipt pg now = Sends req ->
     exists o u final,
       order pg = Some o /\ user pg = Some u /\
       last (stages o) = Some final /\ completed final = false /\
       req = mkUpdate (VString "Confirmed Received")
               (stringify_stages
                  (<[(length (stages o) - 1)%nat := mkStage (name final) (VString now) true]>
                     (stages o)))
               (orderId pg) (uid u))
  /\ (forall o u final, order pg = Some o -> user pg = Some u ->
        last (stages o) = Some final -> completed final = false ->
        exists req, confirmReceipt pg now = Sends req)
  /\ (forall req, clickConfirmReceived pg now = Sends req ->
        exists o final, order pg = Some o /\ last (stages o) = Some final /\
                        name final = VString "Delivered" /\ completed final = false)
  /\ (forall o final, order pg = Some o -> last (stages o) = Some final ->
        (completed final = true -> confirmReceipt pg now = Returns) /\
        (name final <> VString "Delivered" -> clickConfirmReceived pg now = Returns))
  /\ (forall db write_ok, confirmReceipt pg now = Returns ->
        step (Confirm now write_ok) (db, pg) = (db, pg)).
Proof.
  split; [exact (confirmReceipt_sends pg now) |].
  split; [| split; [| split]].
  - intros o u final Ho Hu Hl Hc. unfold confirmReceipt.
    rewrite Ho, Hu, Hl, Hc. eauto.
  - unfold clickConfirmReceived, confirmButtonShown. intros req H.
    destruct (order pg) as [o|]; [| discriminate].
    destruct (last (stages o)) as [final|] eqn:Hl; [| discriminate].
    destruct (is_string (name final) "Delivered") eqn:Hn; [| discriminate].
    destruct (completed final) eqn:Hc; [discriminate |].
    exists o, final. split; [reflexivity |]. split; [exact Hl |].
    split; [| exact Hc].
    unfold is_string in Hn. destruct (name final); try discriminate.
    apply String.eqb_eq in Hn. congruence.
  - intros o final Ho Hl. split.
    + intros Hc. unfold confirmReceipt. rewrite Ho. destruct (user pg); [| reflexivity].
      rewrite Hl, Hc. reflexivity.
    + intros Hn. unfold clickConfirmReceived, confirmButtonShown. rewrite Ho, Hl.
      destruct (is_string (name final) "Delivered") eqn:E; [| reflexivity].
      exfalso. apply Hn. unfold is_string in E. destruct (name final); try discriminate.
      apply String.eqb_eq in E. congruence.
  - intros db write_ok H. cbn [step snd]. rewrite H. reflexivity.
Qed.

Lemma confirmReceipt_last_stage_guard_witness :
  exists o final,
    order (snd (Examples.loaded "u1" "o2")) = Some o /\
    last (stages o) = Some final /\
    name final = VString "Delivered" /\ completed final = false.
Proof.
  exact (proj1 (proj2 (proj2 (confirmReceipt_last_stage_guard
                                (snd (Examples.loaded "u1" "o2"))
                                "2025-01-03T10:00:00.000Z")))
               _ eq_refl).
Defined.

(** ** Ownership *)

Lemma apply_update_no_match req db oid u data :
  select_single db oid = Some data -> row_user_id data <> uid u ->
  where_id req = Some oid -> where_user_id req = uid u ->
  apply_update req db = db.
Proof.
  intros Hsel Hown Hid Hw. unfold apply_update.
  rewrite <- (list_fmap_id db) at 2. apply list_fmap_ext. intros i r Hr. cbn.
  unfold updated_row, matches. rewrite Hid, Hw.
  destruct (String.eqb (row_id r) oid) eqn:E; [| reflexivity].
  apply String.eqb_eq in E.
  assert (r = data) as ->.
  { unfold select_single in Hsel.
    destruct (filter (fun r => row_id r = oid) db) as [|r' [|? ?]] eqn:F;
      try discriminate.
    injection Hsel as <-.
    assert (Hin : r ∈ filter (fun r => row_id r = oid) db).
    { apply list_elem_of_filter. split; [exact E |].
      eapply list_elem_of_lookup_2, Hr. }
    rewrite F in Hin. apply list_elem_of_singleton in Hin. exact Hin. }
  destruct (String.eqb (row_user_id data) (uid u)) eqn:E'; [| reflexivity].
  apply String.eqb_eq in E'. contradiction.
Qed.

(** With no [order] state both transitions take their early [return]. *)
Lemma transitions_without_order pg now :
  order pg = None -> advanceStage pg now = None /\ confirmReceipt pg now = Returns.
Proof. intros Ho. unfold advanceStage, confirmReceipt. rewrite Ho. split; reflexivity. Qed.

(** The signed-in user "u2" does not own the order "o2" (the query answers
    "Access denied"), and yet, on the page that holds the order from before
    the account changed, the "Confirm Received" button is there and a click
    on it sends the update, as does [advanceStage]: nothing is rejected
    before the write is attempted.  The update is filtered on
    [user_id = "u2"], matches no row, and leaves store and page as they
    were. *)
Lemma non_owner_transition_is_sent :
  queryFn Examples.store Examples.switched_account = Rejected AccessDenied
  /\ clickConfirmReceived Examples.switched_account "2025-01-03T10:00:00.000Z"
     = Sends (mkUpdate (VString "Confirmed Received")
                (stringify_stages
                   [ mkStage (VString "Order Placed")
                             (VString "2025-01-01T08:00:00.000Z") true;
                     mkStage (VString "Processing") (VString "") false;
                     mkStage (VString "Delivered")
                             (VString "2025-01-03T10:00:00.000Z") true ])
                (Some "o2") "u2")
  /\ advanceStage Examples.switched_account "2025-01-03T10:00:00.000Z"
     = Some (mkUpdate (VString "Delivered")
               (stringify_stages
                  [ mkStage (VString "Order Placed")
                            (VString "2025-01-01T08:00:00.000Z") true;
                    mkStage (VString "Processing")
                            (VString "2025-01-03T10:00:00.000Z") true;
                    mkStage (VString "Delivered") (VString "") false ])
               (Some "o2") "u2")
  /\ step (Confirm "2025-01-03T10:00:00.000Z" true)
          (Examples.store, Examples.switched_account)
     = (Examples.store, Examples.switched_account).
Proof. repeat split; vm_compute; reflexivity. Qed.

(** C7.  For a signed-in user who does not own the order, the ownership
    check is that of the query: it is rejected with "Access denied", so a
    page whose [order] state comes from its own query holds no order, and
    without an order [advanceStage] and [confirmReceipt] return without
    sending.  The two transitions test no ownership themselves: on a page
    that holds the order they send the update they would send for the
    owner, filtered on [id = orderId] and [user_id =] the caller's id.  An
    update with these two filters matches no row of the store, so whatever
    the page holds and whatever sequence of fetches and transitions is
    attempted, accepted or refused, the store and the page stay as they
    are. *)
Theorem non_owner_changes_nothing db pg u oid data :
  orderId pg = Some oid -> oid <> "" -> session pg = true -> user pg = Some u ->
  select_single db oid = Some data -> row_user_id data <> uid u ->
  queryFn db pg = Rejected AccessDenied
  /\ (in_sync (db, pg) -> order pg = None)
  /\ (order pg = None ->
      forall now, advanceStage pg now = None /\ confirmReceipt pg now = Returns)
  /\ (forall o now, order pg = Some o ->
        (forall i cur next,
           current_stage (stages o) = Some (i, cur) -> stages o !! S i = Some next ->
           advanceStage pg now
           = Some (mkUpdate (name next)
                     (stringify_stages (<[i := complete_at now cur]> (stages o)))
                     (Some oid) (uid u)))
        /\ (forall final,
              last (stages o) = Some final -> completed final = false ->
              confirmReceipt pg now
              = Sends (mkUpdate (VString "Confirmed Received")
                         (stringify_stages
                            (<[(length (stages o) - 1)%nat := complete_at now final]>
                               (stages o)))
                         (Some oid) (uid u))))
  /\ (forall req, where_id req = Some oid -> where_user_id req = uid u ->
                  apply_update req db = db)
  /\ (forall es, run es (db, pg) = (db, pg)).
Proof.
  intros Hoid Hne Hses Hu Hsel Hown.
  assert (Hq : queryFn db pg = Rejected AccessDenied).
  { unfold queryFn. rewrite Hoid, Hses, Hu, Hsel.
    destruct (String.eqb oid "") eqn:E; [apply String.eqb_eq in E; contradiction |].
    destruct (String.eqb (row_user_id data) (uid u)) eqn:E';
      [apply String.eqb_eq in E'; contradiction | reflexivity]. }
  assert (Hnone : forall req, where_id req = Some oid -> where_user_id req = uid u ->
                              apply_update req db = db).
  { intros req Hid Hw. exact (apply_update_no_match req db oid u data Hsel Hown Hid Hw). }
  split; [exact Hq |]. split; [| split; [| split; [| split; [exact Hnone |]]]].
  - intros Hsync. destruct (order pg) as [o|] eqn:Ho; [| reflexivity].
    specialize (Hsync o Ho). cbn in Hsync. congruence.
  - intros Ho now. exact (transitions_without_order pg now Ho).
  - intros o now Ho. split.
    + intros i cur next Hc Hnext. unfold advanceStage. rewrite Ho, Hu, Hc.
      assert (Hlt : (S i < length (stages o))%nat)
        by (apply lookup_lt_is_Some; eauto).
      destruct (Z.of_nat i <? Z.of_nat (length (stages o)) - 1) eqn:E;
        [| apply Z.ltb_ge in E; lia].
      rewrite list_lookup_insert_ne by lia. rewrite Hnext, Hoid. reflexivity.
    + intros final Hl Hc. unfold confirmReceipt. rewrite Ho, Hu, Hl, Hc, Hoid.
      reflexivity.
  - assert (Hstep : forall e, step e (db, pg) = (db, pg)).
    { intros [|now ok|now ok]; cbn [step fst snd].
      - unfold refetch. rewrite Hq. reflexivity.
      - destruct (advanceStage pg now) as [req|] eqn:H; [| reflexivity].
        destruct (advanceStage_sends _ _ _ H)
          as (o & u' & i & cur & next & _ & Hu' & _ & _ & _ & Hreq).
        unfold send. destruct ok; [| reflexivity]. cbn [fst snd].
        rewrite (Hnone req) by (subst req; cbn; congruence).
        unfold refetch. rewrite Hq. reflexivity.
      - destruct (confirmReceipt pg now) as [| |req] eqn:H; try reflexivity.
        destruct (confirmReceipt_sends _ _ _ H)
          as (o & u' & final & _ & Hu' & _ & _ & Hreq).
        unfold send. destruct ok; [| reflexivity]. cbn [fst snd].
        rewrite (Hnone req) by (subst req; cbn; congruence).
        unfold refetch. rewrite Hq. reflexivity. }
    unfold run. induction es as [|e es IH]; [reflexivity |].
    cbn [fold_left]. rewrite Hstep. exact IH.
Qed.

Lemma non_owner_changes_nothing_witness :
  queryFn Examples.store Examples.switched_account = Rejected AccessDenied
  /\ run [Confirm "2025-01-03T10:00:00.000Z" true; Fetch;
          Advance "2025-01-03T11:00:00.000Z" true]
         (Examples.store, Examples.switched_account)
     = (Examples.store, Examples.switched_account).
Proof.
  pose proof (non_owner_changes_nothing Examples.store Examples.switched_account
                (mkUser "u2") "o2" Examples.short_row
                eq_refl ltac:(discriminate) eq_refl eq_refl eq_refl
                ltac:(discriminate)) as (Hq & _ & _ & _ & _ & Hrun).
  split; [exact Hq | exact (Hrun _)].
Defined.

(** ** Sequences of events *)

Lemma step_confirm_accepted st o final now :
  in_sync st -> order (snd st) = Some o ->
  last (stages o) = Some final -> completed final = false ->
  let l := <[(length (stages o) - 1)%nat := complete_at now final]> (stages o) in
  step (Confirm now true) st =
    (apply_update (mkUpdate (VString "Confirmed Received") (stringify_stages l)
                            (Some (id o)) (user_id o)) (fst st),
     mkPage (orderId (snd st)) (session (snd st)) (user (snd st))
            (Some (mkOrder (id o) (user_id o) (VString "Confirmed Received") l
                           (created_at o) (VString "") (VString "")))).
Proof.
  intros H Ho Hl Hc l.
  destruct (in_sync_order st o H Ho) as (u & data & Hu & Hoid & Huid & _ & _ & Hconf).
  assert (Hlast : stages o !! (length (stages o) - 1)%nat = Some final).
  { rewrite last_lookup in Hl. rewrite <- Hl. f_equal. lia. }
  assert (Hconf' : Forall conformant l)
    by (apply complete_at_conformant; assumption).
  destruct (send_accepted st o (VString "Confirmed Received") l H Ho Hconf') as [Hsend _].
  cbn [step]. unfold confirmReceipt. rewrite Ho, Hu, Hl, Hc. fold l.
  rewrite Huid, Hsend, Hoid, ?Hu. reflexivity.
Qed.

(** What one event does to the stage list of a loaded order: nothing, or
    the completion of the current stage (which is not the last one), or the
    completion of the last stage. *)
Ltac stage_list_unchanged Hsame :=
  split; [apply Hsame | left; apply Hsame].

Lemma step_shown e st o :
  in_sync st -> order (snd st) = Some o ->
  is_Some (order (snd (step e st))) /\
  (shown (step e st) = stages o
   \/ (exists now ok i cur,
         e = Advance now ok /\ current_stage (stages o) = Some (i, cur) /\
         (S i < length (stages o))%nat /\
         shown (step e st) = <[i := complete_at now cur]> (stages o))
   \/ (exists now ok final,
         e = Confirm now ok /\ last (stages o) = Some final /\
         completed final = false /\
         shown (step e st)
         = <[(length (stages o) - 1)%nat := complete_at now final]> (stages o))).
Proof.
  intros H Ho.
  assert (Hsame : is_Some (order (snd st)) /\ shown st = stages o).
  { unfold shown. rewrite Ho. split; [eauto | reflexivity]. }
  destruct e as [|now ok|now ok]; cbn [step].
  - cbn [snd fst]. rewrite (refetch_same st o H Ho). stage_list_unchanged Hsame.
  - destruct (advanceStage (snd st) now) as [req|] eqn:Ha;
      [| stage_list_unchanged Hsame].
    destruct ok; [| stage_list_unchanged Hsame].
    destruct (advanceStage_sends _ _ _ Ha)
      as (o' & u & i & cur & next & Ho' & _ & Hc & Hlt & _ & _).
    rewrite Ho in Ho'. injection Ho' as <-.
    destruct (step_advance_accepted st o i cur now H Ho Hc Hlt)
      as (next' & _ & _ & Hstep & _).
    cbn [step] in Hstep. rewrite Ha in Hstep. rewrite Hstep.
    split; [cbn; eauto |]. right; left. exists now, true, i, cur.
    repeat split; assumption.
  - destruct (confirmReceipt (snd st) now) as [| |req] eqn:Ha;
      try (stage_list_unchanged Hsame).
    destruct ok; [| stage_list_unchanged Hsame].
    destruct (confirmReceipt_sends _ _ _ Ha)
      as (o' & u & final & Ho' & _ & Hl & Hc & _).
    rewrite Ho in Ho'. injection Ho' as <-.
    pose proof (step_confirm_accepted st o final now H Ho Hl Hc) as Hstep.
    cbn [step] in Hstep. rewrite Ha in Hstep. cbn zeta in Hstep. rewrite Hstep.
    split; [cbn; eauto |]. right; right. exists now, true, final.
    repeat split; assumption.
Qed.

Lemma keeps_completed_refl l : keeps_completed l l.
Proof. intros i s H _. exact H. Qed.

Lemma keeps_completed_trans l1 l2 l3 :
  keeps_completed l1 l2 -> keeps_completed l2 l3 -> keeps_completed l1 l3.
Proof. intros H12 H23 i s Hi Hc. apply H23; [apply H12 |]; assumption. Qed.

Lemma keeps_completed_insert l i cur x :
  l !! i = Some cur -> completed cur = false -> keeps_completed l (<[i := x]> l).
Proof.
  intros Hi Hc j s Hj Hs. rewrite list_lookup_insert_ne; [exact Hj |].
  intros <-. congruence.
Qed.

Lemma step_keeps_completed e st :
  in_sync st -> keeps_completed (shown st) (shown (step e st)).
Proof.
  intros H. destruct (order (snd st)) as [o|] eqn:Ho.
  2:{ unfold shown at 1. rewrite Ho. intros i s Hi. discriminate. }
  assert (Hs : shown st = stages o) by (unfold shown; rewrite Ho; reflexivity).
  rewrite Hs.
  destruct (step_shown e st o H Ho)
    as [_ [-> | [(now & ok & i & cur & _ & Hc & _ & ->)
                | (now & ok & final & _ & Hl & Hc & ->)]]].
  - apply keeps_completed_refl.
  - destruct (current_stage_lookup _ _ _ Hc) as (Hi & Hf & _).
    eapply keeps_completed_insert; eassumption.
  - eapply keeps_completed_insert; [| exact Hc].
    rewrite last_lookup in Hl. rewrite <- Hl. f_equal. lia.
Qed.

Lemma run_keeps_completed es : forall st,
  in_sync st -> keeps_completed (shown st) (shown (run es st)).
Proof.
  unfold run. induction es as [|e es IH]; intros st H; cbn [fold_left].
  - apply keeps_completed_refl.
  - eapply keeps_completed_trans; [apply step_keeps_completed, H |].
    apply IH, step_in_sync, H.
Qed.

(** *** Timestamps along sequences of [advanceStage] *)

Lemma filter_completed_all (l : list Stage) :
  Forall (fun s => completed s = true) l ->
  filter (fun s => completed s = true) l = l.
Proof.
  induction 1 as [|s l Hs _ IH]; [reflexivity |].
  rewrite filter_cons, decide_True by exact Hs. rewrite IH. reflexivity.
Qed.

Lemma filter_completed_none (l : list Stage) :
  Forall (fun s => completed s = false) l ->
  filter (fun s => completed s = true) l = [].
Proof.
  induction 1 as [|s l Hs _ IH]; [reflexivity |].
  rewrite filter_cons, decide_False by congruence. exact IH.
Qed.

(** With the completed stages in front, the current stage splits the list
    into the completed ones and the pending ones. *)
Lemma current_stage_split l i cur :
  completed_prefix l -> current_stage l = Some (i, cur) ->
  exists (before after : list Stage),
    l = (before ++ cur :: after)%list /\ length before = i /\
    Forall (fun s => completed s = true) before /\
    Forall (fun s => completed s = false) after.
Proof.
  intros Hp Hc. destruct (current_stage_lookup _ _ _ Hc) as (Hi & Hf & Hb).
  exists (take i l), (drop (S i) l).
  split; [symmetry; apply take_drop_middle, Hi |].
  split; [apply length_take_le; apply lookup_lt_Some in Hi; lia |].
  split.
  - apply Forall_lookup. intros j s Hj.
    apply lookup_take_Some in Hj. destruct Hj as [Hj Hlt]. eauto.
  - apply Forall_lookup. intros j s Hj. rewrite lookup_drop in Hj.
    destruct (completed s) eqn:Hs; [| reflexivity].
    destruct (Hp i (S i + j)%nat s ltac:(lia) Hj Hs) as (s' & Hi' & Hs').
    congruence.
Qed.

Lemma completed_prefix_app (before after : list Stage) :
  Forall (fun s => completed s = true) before ->
  Forall (fun s => completed s = false) after ->
  completed_prefix (before ++ after).
Proof.
  intros Hb Ha i j s Hlt Hj Hs.
  apply lookup_app_Some in Hj. destruct Hj as [Hj | [_ Hj]].
  - apply lookup_lt_Some in Hj.
    destruct (lookup_lt_is_Some_2 before i ltac:(lia)) as [s' Hi].
    exists s'. split; [rewrite lookup_app_l by lia; exact Hi |].
    rewrite Forall_lookup in Hb. eauto.
  - rewrite Forall_lookup in Ha. specialize (Ha _ _ Hj). congruence.
Qed.

Lemma advance_completed_times l i cur now :
  completed_prefix l -> current_stage l = Some (i, cur) ->
  completed_prefix (<[i := complete_at now cur]> l) /\
  completed_times (<[i := complete_at now cur]> l)
  = (completed_times l ++ [VString now])%list.
Proof.
  intros Hp Hc.
  destruct (current_stage_lookup _ _ _ Hc) as (_ & Hf & _).
  destruct (current_stage_split l i cur Hp Hc) as (b & a & -> & Hlen & Hb & Ha).
  rewrite insert_app_r_alt by lia. rewrite Hlen, Nat.sub_diag. cbn [insert list_insert].
  split.
  - change (b ++ complete_at now cur :: a)%list
      with (b ++ [complete_at now cur] ++ a)%list.
    rewrite app_assoc. apply completed_prefix_app; [| exact Ha].
    apply Forall_app. split; [exact Hb |]. repeat constructor.
  - unfold completed_times. rewrite !filter_app, !filter_cons.
    rewrite decide_True by reflexivity. rewrite decide_False by congruence.
    rewrite (filter_completed_none a Ha), (filter_completed_all b Hb).
    rewrite app_nil_r, fmap_app. reflexivity.
Qed.

Lemma sorted_drop_middle (before : list jsval) x after :
  StronglySorted ts_le (before ++ x :: after) ->
  StronglySorted ts_le (before ++ after).
Proof.
  rewrite !StronglySorted_app. intros (H12 & H1 & H2).
  apply StronglySorted_inv in H2. destruct H2 as [H2 _].
  repeat split; try assumption.
  intros x1 x2 Hx1 Hx2. apply H12; [exact Hx1 | right; exact Hx2].
Qed.

Lemma run_advance_chronological es : forall st o,
  in_sync st -> order (snd st) = Some o ->
  existsb is_confirm es = false ->
  completed_prefix (stages o) ->
  StronglySorted ts_le (completed_times (stages o) ++ event_times es) ->
  completed_prefix (shown (run es st)) /\ chronological (shown (run es st)).
Proof.
  unfold run. induction es as [|e es IH]; intros st o H Ho Hnc Hp Hs; cbn [fold_left].
  - unfold shown, chronological. rewrite Ho.
    cbn in Hs. rewrite app_nil_r in Hs. split; assumption.
  - cbn [existsb] in Hnc. apply orb_false_iff in Hnc. destruct Hnc as [He Hnc].
    pose proof (step_in_sync e st H) as H'.
    destruct (step_shown e st o H Ho) as [[o' Ho'] Hcases].
    assert (Hshown : shown (step e st) = stages o')
      by (unfold shown; rewrite Ho'; reflexivity).
    rewrite Hshown in Hcases.
    apply (IH (step e st) o' H' Ho' Hnc).
    + destruct Hcases as [-> | [(now & ok & i & cur & _ & Hc & _ & ->)
                                | (now & ok & final & -> & _)]];
        [exact Hp | | discriminate He].
      apply advance_completed_times; assumption.
    + destruct Hcases as [-> | [(now & ok & i & cur & -> & Hc & _ & ->)
                                | (now & ok & final & -> & _)]];
        [| | discriminate He].
      * destruct e as [|now ok|now ok]; cbn in Hs |- *;
          [exact Hs | eapply sorted_drop_middle; exact Hs
          | eapply sorted_drop_middle; exact Hs].
      * rewrite (proj2 (advance_completed_times _ _ _ now Hp Hc)).
        rewrite <- app_assoc. exact Hs.
Qed.

(** C8 fails as stated.  From the loaded three-stage order,
    [confirmReceipt] at 10:00 completes "Delivered" and [advanceStage] at
    11:00 then completes "Processing": the flags only went up, but the
    completed stage "Processing" now carries a later time than the
    completed stage "Delivered" after it.  The same two calls on the order
    as placed leave "Payment Pending" with a later time than "Confirmed
    Received". *)
Lemma confirm_then_advance_not_chronological :
  shown Examples.confirmed_early
  = [ mkStage (VString "Order Placed") (VString "2025-01-01T08:00:00.000Z") true;
      mkStage (VString "Processing") (VString "2025-01-03T11:00:00.000Z") true;
      mkStage (VString "Delivered") (VString "2025-01-03T10:00:00.000Z") true ]
  /\ ~ chronological (shown Examples.confirmed_early)
  /\ completed_times (shown Examples.confirmed_early_placed)
     = [ VString "2025-01-01T08:00:00+00:00"; VString "2025-01-03T11:00:00.000Z";
         VString "2025-01-03T10:00:00.000Z" ]
  /\ ~ chronological (shown Examples.confirmed_early_placed).
Proof.
  assert (Hno : ~ StronglySorted ts_le
                    [VString "2025-01-03T11:00:00.000Z";
                     VString "2025-01-03T10:00:00.000Z"]).
  { intros H. apply StronglySorted_inv in H. destruct H as [_ H].
    apply List.Forall_inv in H. cbn in H. discriminate H. }
  split; [reflexivity |]. split; [| split; [reflexivity |]].
  - intros H. unfold chronological in H.
    change (completed_times _)
      with [VString "2025-01-01T08:00:00.000Z"; VString "2025-01-03T11:00:00.000Z";
            VString "2025-01-03T10:00:00.000Z"] in H.
    apply StronglySorted_inv in H. destruct H as [H _]. exact (Hno H).
  - intros H. unfold chronological in H.
    change (completed_times _)
      with [VString "2025-01-01T08:00:00+00:00"; VString "2025-01-03T11:00:00.000Z";
            VString "2025-01-03T10:00:00.000Z"] in H.
    apply StronglySorted_inv in H. destruct H as [H _]. exact (Hno H).
Qed.

(** C8, amended.  Along every sequence of loads, [advanceStage] and
    [confirmReceipt] on a page in sync with the store, a completed stage
    stays where it is, unchanged: no flag goes back to false.  A write that
    the store refuses changes neither the stage list of the page nor the
    store.  The timestamps of the completed stages stay non-decreasing in
    stage order along sequences without [confirmReceipt], when the
    completed stages are in front and the clock does not run backwards;
    [confirmReceipt] completes the last stage whatever the earlier ones, and
    the order of the timestamps is not kept once it has run. *)
Theorem completion_is_monotone st es :
  in_sync st ->
  keeps_completed (shown st) (shown (run es st))
  /\ (forall now, step (Advance now false) st = st /\ step (Confirm now false) st = st)
  /\ (forall o, order (snd st) = Some o ->
        existsb is_confirm es = false ->
        completed_prefix (stages o) ->
        StronglySorted ts_le (completed_times (stages o) ++ event_times es) ->
        completed_prefix (shown (run es st)) /\ chronological (shown (run es st))).
Proof.
  intros H. split; [apply run_keeps_completed, H |]. split.
  - intros now. cbn [step]. split.
    + destruct (advanceStage (snd st) now); reflexivity.
    + destruct (confirmReceipt (snd st) now); reflexivity.
  - intros o Ho Hnc Hp Hs. eapply run_advance_chronological; eassumption.
Qed.

Lemma completion_is_monotone_witness :
  keeps_completed (shown (Examples.loaded "u1" "o1"))
                  (shown (run Examples.advanced_twice (Examples.loaded "u1" "o1")))
  /\ chronological (shown (run Examples.advanced_twice (Examples.loaded "u1" "o1"))).
Proof.
  pose proof (completion_is_monotone (Examples.loaded "u1" "o1")
    Examples.advanced_twice (loaded_in_sync "u1" "o1")) as (Hk & _ & Hc).
  split; [exact Hk |].
  refine (proj2 (Hc (order_of_row Examples.placed_row) eq_refl eq_refl _ _)).
  - apply (completed_prefix_app
             [mkStage (VString "Order Placed") (VString "2025-01-01T08:00:00+00:00") true]);
      repeat constructor.
  - repeat constructor.
Defined.

(* ================================================================== *)
(** * Part III: further properties of the same code                    *)
(* ================================================================== *)

(** ** The cart *)

Lemma fold_quantity_from (l : list Cart.Item) a :
  fold_left (fun sum item => sum + Cart.quantity item) l a
  = a + Cart.totalItems l.
Proof.
  unfold Cart.totalItems. revert a.
  induction l as [|x l IH]; intros a; cbn [fold_left]; [lia |].
  rewrite IH, (IH (0 + Cart.quantity x)). lia.
Qed.

Lemma totalItems_cons x l :
  Cart.totalItems (x :: l) = Cart.quantity x + Cart.totalItems l.
Proof. unfold Cart.totalItems at 1. cbn [fold_left]. apply fold_quantity_from. Qed.

Lemma totalItems_app l1 l2 :
  Cart.totalItems (l1 ++ l2) = Cart.totalItems l1 + Cart.totalItems l2.
Proof.
  induction l1 as [|x l1 IH]; [reflexivity |].
  cbn [app]. rewrite !totalItems_cons, IH. lia.
Qed.

Lemma find_first_None_iff {A} (p : A -> bool) l :
  find_first p l = None <-> Forall (fun x => p x = false) l.
Proof.
  induction l as [|a l IH]; cbn.
  - split; [constructor | reflexivity].
  - destruct (p a) eqn:E.
    + split; [discriminate |]. intros H. apply List.Forall_inv in H. congruence.
    + rewrite IH. split; [constructor; assumption | apply List.Forall_inv_tail].
Qed.

Lemma find_first_Some_In {A} (p : A -> bool) l x :
  find_first p l = Some x -> In x l /\ p x = true.
Proof.
  induction l as [|a l IH]; cbn; [discriminate |].
  destruct (p a) eqn:E.
  - intros [= <-]. split; [left; reflexivity | exact E].
  - intros H. destruct (IH H). split; [right |]; assumption.
Qed.

Lemma cart_id_absent l target :
  ~ In target (map Cart.id l) <->
  find_first (fun item => String.eqb (Cart.id item) target) l = None.
Proof.
  rewrite find_first_None_iff, List.Forall_forall. split.
  - intros H x Hx. apply String.eqb_neq. intros E. apply H.
    apply in_map_iff. exists x. split; assumption.
  - intros H Hin. apply in_map_iff in Hin. destruct Hin as (x & E & Hx).
    specialize (H x Hx). apply String.eqb_neq in H. contradiction.
Qed.

Lemma cart_ids_preserved (g : Cart.Item -> Cart.Item) l :
  (forall x, Cart.id (g x) = Cart.id x) -> map Cart.id (g <$> l) = map Cart.id l.
Proof.
  intros Hg. induction l as [|x l IH]; [reflexivity |].
  cbn. rewrite Hg. f_equal. exact IH.
Qed.

Lemma filter_positive_all (l : list Cart.Item) :
  Forall (fun item => 0 < Cart.quantity item) l ->
  filter (fun item => 0 < Cart.quantity item) l = l.
Proof.
  induction 1 as [|x l Hx _ IH]; [reflexivity |].
  rewrite filter_cons, decide_True by exact Hx. rewrite IH. reflexivity.
Qed.

(** X1.  [UPDATE_QUANTITY] never takes a line out of a cart whose
    quantities are positive: the line aimed at gets [max 1 q], also for
    [q <= 0], every other line stays as it is, and the order of the lines is
    kept.  Whatever the cart, every line left has a positive quantity. *)
Theorem updateQuantity_keeps_every_line state target q :
  Forall (fun item => 0 < Cart.quantity item)
         (Cart.cartReducer state (Cart.UPDATE_QUANTITY target q))
  /\ (Forall (fun item => 0 < Cart.quantity item) state ->
      Cart.cartReducer state (Cart.UPDATE_QUANTITY target q)
      = (fun item => if String.eqb (Cart.id item) target
                     then Cart.with_quantity (Z.max 1 q) item else item) <$> state
      /\ length (Cart.cartReducer state (Cart.UPDATE_QUANTITY target q)) = length state
      /\ map Cart.id (Cart.cartReducer state (Cart.UPDATE_QUANTITY target q))
         = map Cart.id state).
Proof.
  cbn [Cart.cartReducer]. split.
  - apply Forall_forall. intros x Hx. apply list_elem_of_filter in Hx. tauto.
  - intros Hpos.
    assert (E : filter (fun item => 0 < Cart.quantity item)
                  ((fun item => if String.eqb (Cart.id item) target
                                then Cart.with_quantity (Z.max 1 q) item else item)
                     <$> state)
                = (fun item => if String.eqb (Cart.id item) target
                               then Cart.with_quantity (Z.max 1 q) item else item)
                    <$> state).
    { apply filter_positive_all. apply Forall_fmap.
      eapply List.Forall_impl; [| exact Hpos]. cbn. intros x Hx.
      destruct (String.eqb (Cart.id x) target); cbn; lia. }
    rewrite E. split; [reflexivity |]. split; [apply length_fmap |].
    apply cart_ids_preserved. intros x.
    destruct (String.eqb (Cart.id x) target); reflexivity.
Qed.

Lemma updateQuantity_keeps_every_line_witness :
  Cart.cartReducer
    [Cart.mkItem "p1" "Neem oil - 1L" 100 3 None None (Some "1L") (Some "v1")]
    (Cart.UPDATE_QUANTITY "p1" 0)
  = [Cart.mkItem "p1" "Neem oil - 1L" 100 1 None None (Some "1L") (Some "v1")].
Proof.
  refine (proj1 (proj2 (updateQuantity_keeps_every_line
     [Cart.mkItem "p1" "Neem oil - 1L" 100 3 None None (Some "1L") (Some "v1")]
     "p1" 0) _)).
  repeat constructor.
Defined.

(** X2.  [ADD_ITEM] for an id already in the cart adds no line: it adds the
    quantity of the payload to the line with that id and uses nothing else
    of the payload, so another size of the same product is merged into the
    line of the first one.  For an id that is not in the cart the payload
    becomes the last line. *)
Theorem addItem_merges_by_id state payload :
  (In (Cart.id payload) (map Cart.id state) ->
   Cart.cartReducer state (Cart.ADD_ITEM payload)
   = (fun item => if String.eqb (Cart.id item) (Cart.id payload)
                  then Cart.with_quantity (Cart.quantity item + Cart.quantity payload) item
                  else item) <$> state
   /\ length (Cart.cartReducer state (Cart.ADD_ITEM payload)) = length state
   /\ forall other,
        Cart.id other = Cart.id payload -> Cart.quantity other = Cart.quantity payload ->
        Cart.cartReducer state (Cart.ADD_ITEM other)
        = Cart.cartReducer state (Cart.ADD_ITEM payload))
  /\ (~ In (Cart.id payload) (map Cart.id state) ->
      Cart.cartReducer state (Cart.ADD_ITEM payload) = (state ++ [payload])%list).
Proof.
  cbn [Cart.cartReducer]. split.
  - intros Hin.
    destruct (find_first (fun item => String.eqb (Cart.id item) (Cart.id payload)) state)
      eqn:E; [| apply cart_id_absent in E; contradiction].
    split; [reflexivity |]. split; [apply length_fmap |].
    intros other Hid Hq. cbn [Cart.cartReducer]. rewrite Hid, Hq, E. reflexivity.
  - intros Hout. apply cart_id_absent in Hout. rewrite Hout. reflexivity.
Qed.

Lemma addItem_merges_by_id_witness :
  Cart.cartReducer
    [Cart.mkItem "p1" "Neem oil - 1L" 100 3 None None (Some "1L") (Some "v1")]
    (Cart.ADD_ITEM
       (Cart.mkItem "p1" "Neem oil - 5L" 450 2 None None (Some "5L") (Some "v2")))
  = [Cart.mkItem "p1" "Neem oil - 1L" 100 5 None None (Some "1L") (Some "v1")].
Proof.
  refine (proj1 (proj1 (addItem_merges_by_id
     [Cart.mkItem "p1" "Neem oil - 1L" 100 3 None None (Some "1L") (Some "v1")]
     (Cart.mkItem "p1" "Neem oil - 5L" 450 2 None None (Some "5L") (Some "v2"))) _)).
  left. reflexivity.
Defined.

Lemma cart_ids_filter (P : Cart.Item -> Prop) `{!forall x, Decision (P x)} l :
  NoDup (map Cart.id l) -> NoDup (map Cart.id (filter P l)).
Proof.
  induction l as [|x l IH]; cbn [map]; [intros; constructor |].
  intros Hnd. apply NoDup_cons in Hnd. destruct Hnd as [Hx Hl].
  rewrite filter_cons. destruct (decide (P x)); [| apply IH, Hl].
  cbn [map]. apply NoDup_cons. split; [| apply IH, Hl].
  intros Hin. apply Hx. apply list_elem_of_In in Hin. apply list_elem_of_In.
  apply in_map_iff in Hin. destruct Hin as (y & E & Hy). apply in_map_iff.
  exists y. split; [exact E |].
  apply list_elem_of_In in Hy. apply list_elem_of_filter in Hy.
  apply list_elem_of_In. tauto.
Qed.

Lemma cartReducer_unique_ids state action :
  NoDup (map Cart.id state) -> NoDup (map Cart.id (Cart.cartReducer state action)).
Proof.
  intros H. destruct action as [payload | target q | target |]; cbn [Cart.cartReducer].
  - destruct (find_first _ state) eqn:E.
    + rewrite cart_ids_preserved; [exact H |]. intros x.
      destruct (String.eqb (Cart.id x) (Cart.id payload)); reflexivity.
    + apply cart_id_absent in E. rewrite map_app. cbn.
      apply NoDup_app. split; [exact H |]. split; [| apply NoDup_singleton].
      intros x Hx Hx'. apply list_elem_of_singleton in Hx'. subst x.
      apply E, list_elem_of_In, Hx.
  - apply cart_ids_filter. rewrite cart_ids_preserved; [exact H |]. intros x.
    destruct (String.eqb (Cart.id x) target); reflexivity.
  - apply cart_ids_filter, H.
  - constructor.
Qed.

(** X3.  A cart built by dispatching actions from the empty cart never
    holds two lines with the same id, and the property is kept from any
    cart that has it. *)
Theorem cart_ids_stay_unique actions :
  NoDup (map Cart.id (Cart.dispatch_all actions []))
  /\ forall state, NoDup (map Cart.id state) ->
                   NoDup (map Cart.id (Cart.dispatch_all actions state)).
Proof.
  assert (H : forall state, NoDup (map Cart.id state) ->
                            NoDup (map Cart.id (Cart.dispatch_all actions state))).
  { unfold Cart.dispatch_all. induction actions as [|a actions IH]; intros state Hs;
      cbn [fold_left]; [exact Hs |].
    apply IH, cartReducer_unique_ids, Hs. }
  split; [apply H; constructor | exact H].
Qed.

Lemma cart_ids_stay_unique_witness :
  NoDup (map Cart.id
           (Cart.dispatch_all
              [Cart.REMOVE_ITEM "p1"; Cart.UPDATE_QUANTITY "p2" 4]
              [Cart.mkItem "p1" "Neem oil - 1L" 100 3 None None (Some "1L") (Some "v1");
               Cart.mkItem "p2" "Compost - 10kg" 250 1 None None (Some "10kg") (Some "v7")])).
Proof.
  refine (proj2 (cart_ids_stay_unique
                   [Cart.REMOVE_ITEM "p1"; Cart.UPDATE_QUANTITY "p2" 4]) _ _).
  apply (bool_decide_unpack _). vm_compute. exact I.
Defined.

Lemma totalItems_positive l :
  Forall (fun item => 1 <= Cart.quantity item) l ->
  Z.of_nat (length l) <= Cart.totalItems l.
Proof.
  induction 1 as [|x l Hx _ IH]; [reflexivity |].
  rewrite totalItems_cons. cbn [length]. lia.
Qed.

Lemma cartReducer_quantities state action :
  Cart.adds_at_least_one action ->
  Forall (fun item => 1 <= Cart.quantity item) state ->
  Forall (fun item => 1 <= Cart.quantity item) (Cart.cartReducer state action).
Proof.
  intros Ha H. destruct action as [payload | target q | target |]; cbn in *.
  - destruct (find_first _ state).
    + apply Forall_fmap. eapply List.Forall_impl; [| exact H]. cbn. intros x Hx.
      destruct (String.eqb (Cart.id x) (Cart.id payload)); cbn; lia.
    + apply Forall_app. split; [exact H | repeat constructor; exact Ha].
  - apply Forall_forall. intros x Hx. apply list_elem_of_filter in Hx. lia.
  - apply Forall_forall. intros x Hx. apply list_elem_of_filter in Hx.
    rewrite Forall_forall in H. apply H. tauto.
  - constructor.
Qed.

(** X4.  When every [ADD_ITEM] carries a quantity of at least 1, every line
    of the cart has a quantity of at least 1 after any series of actions, so
    [totalItems] is at least the number of lines and is 0 exactly when the
    cart is empty (the test of the cart page for its empty view). *)
Theorem cart_quantities_stay_positive actions state :
  Forall Cart.adds_at_least_one actions ->
  Forall (fun item => 1 <= Cart.quantity item) state ->
  Forall (fun item => 1 <= Cart.quantity item) (Cart.dispatch_all actions state)
  /\ Z.of_nat (length (Cart.dispatch_all actions state))
     <= Cart.totalItems (Cart.dispatch_all actions state)
  /\ (Cart.totalItems (Cart.dispatch_all actions state) = 0
      <-> Cart.dispatch_all actions state = []).
Proof.
  intros Ha Hs.
  assert (H : Forall (fun item => 1 <= Cart.quantity item)
                     (Cart.dispatch_all actions state)).
  { unfold Cart.dispatch_all. revert state Hs.
    induction Ha as [|a actions Ha _ IH]; intros state Hs; cbn [fold_left];
      [exact Hs |].
    apply IH, cartReducer_quantities; assumption. }
  pose proof (totalItems_positive _ H) as Hlen.
  split; [exact H |]. split; [exact Hlen |]. split.
  - intros E. destruct (Cart.dispatch_all actions state); [reflexivity |].
    cbn [length] in Hlen. lia.
  - intros ->. reflexivity.
Qed.

Lemma cart_quantities_stay_positive_witness :
  Cart.totalItems
    (Cart.dispatch_all
       [Cart.ADD_ITEM (Cart.mkItem "p1" "Neem oil - 1L" 100 2 None None (Some "1L") (Some "v1"));
        Cart.UPDATE_QUANTITY "p1" (-3)] []) = 0
  <-> Cart.dispatch_all
        [Cart.ADD_ITEM (Cart.mkItem "p1" "Neem oil - 1L" 100 2 None None (Some "1L") (Some "v1"));
         Cart.UPDATE_QUANTITY "p1" (-3)] [] = [].
Proof.
  refine (proj2 (proj2 (cart_quantities_stay_positive
     [Cart.ADD_ITEM (Cart.mkItem "p1" "Neem oil - 1L" 100 2 None None (Some "1L") (Some "v1"));
      Cart.UPDATE_QUANTITY "p1" (-3)] [] _ _))).
  - repeat constructor. cbn. lia.
  - constructor.
Defined.

Lemma totalItems_bump target delta l :
  NoDup (map Cart.id l) -> In target (map Cart.id l) ->
  Cart.totalItems
    ((fun item => if String.eqb (Cart.id item) target
                  then Cart.with_quantity (Cart.quantity item + delta) item
                  else item) <$> l)
  = Cart.totalItems l + delta.
Proof.
  induction l as [|x l IH]; cbn [map]; [intros _ [] |].
  intros Hnd Hin. apply NoDup_cons in Hnd. destruct Hnd as [Hx Hl].
  rewrite fmap_cons, !totalItems_cons.
  destruct (String.eqb (Cart.id x) target) eqn:E.
  - apply String.eqb_eq in E. cbn [Cart.with_quantity Cart.quantity].
    assert (Hsame : (fun item => if String.eqb (Cart.id item) target
                        then Cart.with_quantity (Cart.quantity item + delta) item
                        else item) <$> l = l).
    { rewrite <- (list_fmap_id l) at 2. apply list_fmap_ext. intros i y Hy.
      destruct (String.eqb (Cart.id y) target) eqn:E'; [| reflexivity].
      apply String.eqb_eq in E'. exfalso. apply Hx. apply list_elem_of_In.
      apply in_map_iff. exists y. split; [congruence |].
      apply list_elem_of_In. eapply list_elem_of_lookup_2. exact Hy. }
    rewrite Hsame. lia.
  - apply String.eqb_neq in E. destruct Hin as [Hin | Hin]; [contradiction |].
    rewrite (IH Hl Hin). lia.
Qed.

Lemma totalItems_remove target l :
  NoDup (map Cart.id l) ->
  Cart.totalItems (filter (fun item => Cart.id item <> target) l)
  = Cart.totalItems l
    - match find_first (fun item => String.eqb (Cart.id item) target) l with
      | Some item => Cart.quantity item
      | None => 0
      end.
Proof.
  induction l as [|x l IH]; cbn [map find_first]; [intros _; reflexivity |].
  intros Hnd. apply NoDup_cons in Hnd. destruct Hnd as [Hx Hl].
  rewrite filter_cons, totalItems_cons.
  destruct (String.eqb (Cart.id x) target) eqn:E.
  - apply String.eqb_eq in E. rewrite decide_False by (intros H; apply H, E).
    rewrite (IH Hl).
    assert (Hn : find_first (fun item => String.eqb (Cart.id item) target) l = None).
    { apply cart_id_absent. intros Hin. apply Hx. rewrite E.
      apply list_elem_of_In, Hin. }
    rewrite Hn. lia.
  - apply String.eqb_neq in E. rewrite decide_True by exact E.
    rewrite totalItems_cons, (IH Hl). lia.
Qed.

(** X5.  In a cart without repeated ids, [ADD_ITEM] raises [totalItems] by
    the quantity of the payload, whether the id was there or not, and
    [REMOVE_ITEM] lowers it by the quantity of the line with that id, by
    nothing when there is none; [CLEAR_CART] leaves 0. *)
Theorem totalItems_accounting state :
  NoDup (map Cart.id state) ->
  (forall payload,
     Cart.totalItems (Cart.cartReducer state (Cart.ADD_ITEM payload))
     = Cart.totalItems state + Cart.quantity payload)
  /\ (forall target,
        Cart.totalItems (Cart.cartReducer state (Cart.REMOVE_ITEM target))
        = Cart.totalItems state
          - match find_first (fun item => String.eqb (Cart.id item) target) state with
            | Some item => Cart.quantity item
            | None => 0
            end)
  /\ Cart.totalItems (Cart.cartReducer state Cart.CLEAR_CART) = 0.
Proof.
  intros Hnd. split; [| split; [| reflexivity]].
  - intros payload. cbn [Cart.cartReducer].
    destruct (find_first _ state) eqn:E.
    + apply totalItems_bump; [exact Hnd |].
      destruct (in_dec string_dec (Cart.id payload) (map Cart.id state)) as [Hin | Hout];
        [exact Hin |].
      apply cart_id_absent in Hout. congruence.
    + rewrite totalItems_app. unfold Cart.totalItems at 2. cbn. lia.
  - intros target. cbn [Cart.cartReducer]. apply totalItems_remove, Hnd.
Qed.

Lemma totalItems_accounting_witness :
  Cart.totalItems
    (Cart.cartReducer
       [Cart.mkItem "p1" "Neem oil - 1L" 100 3 None None (Some "1L") (Some "v1")]
       (Cart.ADD_ITEM
          (Cart.mkItem "p1" "Neem oil - 5L" 450 2 None None (Some "5L") (Some "v2"))))
  = Cart.totalItems
      [Cart.mkItem "p1" "Neem oil - 1L" 100 3 None None (Some "1L") (Some "v1")] + 2.
Proof.
  refine (proj1 (totalItems_accounting
     [Cart.mkItem "p1" "Neem oil - 1L" 100 3 None None (Some "1L") (Some "v1")] _)
     (Cart.mkItem "p1" "Neem oil - 5L" 450 2 None None (Some "5L") (Some "v2"))).
  apply (bool_decide_unpack _). vm_compute. exact I.
Defined.

(** ** The product page *)

Lemma includes_prefixed s : Product.includes "KES" ("KES " ++ s) = true.
Proof. reflexivity. Qed.

Lemma strip_KES_prefix s :
  strip_non_numeric ("KES " ++ s) = strip_non_numeric s.
Proof. reflexivity. Qed.

(** X6.  For a textual price, [formatPriceForDisplay] returns a text that
    contains "KES", formatting that text again changes nothing, and
    [parsePriceToNumber] reads the same number from the formatted text as
    from the original: the label on the page and the price put in the cart
    agree. *)
Theorem formatPriceForDisplay_text (number_to_string : Q -> string) s :
  Product.includes "KES" (Product.formatPriceForDisplay number_to_string (PString s)) = true
  /\ Product.formatPriceForDisplay number_to_string
       (PString (Product.formatPriceForDisplay number_to_string (PString s)))
     = Product.formatPriceForDisplay number_to_string (PString s)
  /\ parsePriceToNumber
       (PString (Product.formatPriceForDisplay number_to_string (PString s)))
     = parsePriceToNumber (PString s).
Proof.
  cbn [Product.formatPriceForDisplay].
  destruct (Product.includes "KES" s) eqn:E.
  - rewrite E. repeat split.
  - rewrite includes_prefixed. repeat split.
    cbn [parsePriceToNumber]. rewrite !strip_remove_first_KES, strip_KES_prefix.
    reflexivity.
Qed.

Lemma find_first_map {A B} (f : A -> B) (p : B -> bool) l :
  find_first p (map f l) = f <$> find_first (fun x => p (f x)) l.
Proof.
  induction l as [|x l IH]; [reflexivity |].
  cbn. destruct (p (f x)); [reflexivity | exact IH].
Qed.

Lemma handleAddToCart_item product variants sel item :
  Product.handleAddToCart (Some product) variants sel = Some item ->
  exists variant,
    find_first (fun v => String.eqb (Product.variant_id v) (Product.selectedVariantId sel))
               variants = Some variant
    /\ Cart.quantity item = Product.quantity sel
    /\ Cart.price item = parsePriceToNumber (Product.variant_price variant)
    /\ Cart.pricing_tiers item
       = (fun tiers =>
            map (fun tier => mkTier (Product.tier_min_quantity tier)
                               (parsePriceToNumber (Product.tier_raw_price tier)))
                tiers) <$> Product.product_tiers product.
Proof.
  unfold Product.handleAddToCart, Product.getNumericPriceForCart.
  destruct (String.eqb (Product.selectedVariantId sel) ""); [discriminate |].
  destruct (find_first _ variants) as [variant|] eqn:Hv; [| discriminate].
  intros [= <-]. exists variant. repeat split.
Qed.

(** X7.  The tiers put in the cart are those of the product, whatever the
    size: for the item that [handleAddToCart] builds, [getUnitPrice] is the
    parsed price of the first tier of the product whose [min_quantity] is at
    most the quantity, and the parsed price of the selected variant only
    when no tier qualifies or the product has none. *)
Theorem added_item_unit_price product variants sel item :
  Product.handleAddToCart (Some product) variants sel = Some item ->
  exists variant,
    find_first (fun v => String.eqb (Product.variant_id v) (Product.selectedVariantId sel))
               variants = Some variant
    /\ Cart.quantity item = Product.quantity sel
    /\ getUnitPrice (Cart.priced item)
       = match Product.product_tiers product with
         | Some tiers =>
             match find_first (fun t => Product.tier_min_quantity t <=? Product.quantity sel)
                              tiers with
             | Some t => parsePriceToNumber (Product.tier_raw_price t)
             | None => parsePriceToNumber (Product.variant_price variant)
             end
         | None => parsePriceToNumber (Product.variant_price variant)
         end.
Proof.
  intros Hadd.
  destruct (handleAddToCart_item product variants sel item Hadd)
    as (variant & Hv & Hq & Hp & Ht).
  exists variant. split; [exact Hv |]. split; [exact Hq |].
  destruct item as [i n p q img tiers sz vid]. cbn in Hq, Hp, Ht. subst q p tiers.
  unfold Cart.priced. cbn [Cart.price Cart.quantity Cart.pricing_tiers].
  destruct (Product.product_tiers product) as [tiers|];
    cbn [fmap option_fmap option_map]; [| reflexivity].
  rewrite getUnitPrice_find, find_first_map. cbn [min_quantity].
  destruct (find_first _ tiers); reflexivity.
Qed.

Lemma added_item_unit_price_witness :
  exists variant,
    find_first (fun v => String.eqb (Product.variant_id v) "v2")
      [Product.mkVariant "v1" "1L" (PString "KES 100") 4;
       Product.mkVariant "v2" "5L" (PString "KES 450") 9] = Some variant
    /\ Cart.quantity
         (Cart.mkItem "p1" "Neem oil - 5L" 450 10 None
            (Some [mkTier 5 90; mkTier 10 80]) (Some "5L") (Some "v2")) = 10
    /\ getUnitPrice
         (Cart.priced
            (Cart.mkItem "p1" "Neem oil - 5L" 450 10 None
               (Some [mkTier 5 90; mkTier 10 80]) (Some "5L") (Some "v2"))) = 90%Q.
Proof.
  exact (added_item_unit_price
     (Product.mkProduct "p1" "Neem oil" (PString "KES 100") None
        (Some [Product.mkProductTier 5 (PString "KES 90");
               Product.mkProductTier 10 (PNumber 80)]))
     [Product.mkVariant "v1" "1L" (PString "KES 100") 4;
      Product.mkVariant "v2" "5L" (PString "KES 450") 9]
     (Product.mkSelection 10 "5L" "v2") _ eq_refl).
Defined.

Lemma unique_by_id (l : list Product.ProductVariant) x y :
  NoDup (map Product.variant_id l) -> In x l -> In y l ->
  Product.variant_id x = Product.variant_id y -> x = y.
Proof.
  induction l as [|a l IH]; cbn [map]; [intros _ [] |].
  intros Hnd Hx Hy E. apply NoDup_cons in Hnd. destruct Hnd as [Ha Hl].
  assert (Hin : forall z, In z l -> Product.variant_id z ∈ map Product.variant_id l).
  { intros z Hz. apply list_elem_of_In, in_map, Hz. }
  destruct Hx as [<- | Hx], Hy as [<- | Hy].
  - reflexivity.
  - exfalso. apply Ha. rewrite E. apply Hin, Hy.
  - exfalso. apply Ha. rewrite <- E. apply Hin, Hx.
  - apply IH; assumption.
Qed.

Lemma find_variant_by_id variants v :
  NoDup (map Product.variant_id variants) -> In v variants ->
  find_first (fun w => String.eqb (Product.variant_id w) (Product.variant_id v)) variants
  = Some v.
Proof.
  intros Hnd Hv.
  destruct (find_first _ variants) as [w|] eqn:E.
  - apply find_first_Some_In in E. destruct E as [Hw Ew].
    apply String.eqb_eq in Ew. f_equal. eapply unique_by_id; eassumption.
  - apply find_first_None_iff in E. rewrite List.Forall_forall in E.
    specialize (E v Hv). rewrite String.eqb_refl in E. discriminate.
Qed.

Lemma selection_invariant variants gestures :
  Forall (Product.offered variants) gestures ->
  let sel := fold_left (Product.perform variants) gestures Product.initial in
  1 <= Product.quantity sel /\
  (Product.selectedSize sel <> "" ->
   exists v, find_first (fun w => String.eqb (Product.variant_size w)
                                             (Product.selectedSize sel)) variants = Some v
             /\ Product.selectedVariantId sel = Product.variant_id v).
Proof.
  intros Hg.
  assert (Hgen : forall sel0,
     (1 <= Product.quantity sel0 /\
      (Product.selectedSize sel0 <> "" ->
       exists v, find_first (fun w => String.eqb (Product.variant_size w)
                                        (Product.selectedSize sel0)) variants = Some v
                 /\ Product.selectedVariantId sel0 = Product.variant_id v)) ->
     let sel := fold_left (Product.perform variants) gestures sel0 in
     1 <= Product.quantity sel /\
     (Product.selectedSize sel <> "" ->
      exists v, find_first (fun w => String.eqb (Product.variant_size w)
                                       (Product.selectedSize sel)) variants = Some v
                /\ Product.selectedVariantId sel = Product.variant_id v)).
  { induction Hg as [|g gestures Hoff _ IH]; intros sel0 Hinv; cbn [fold_left];
      [exact Hinv |].
    apply IH. destruct Hinv as [Hq Hsel].
    destruct g as [delta | chosen]; cbn [Product.perform].
    - unfold Product.handleQuantityChange. cbn. split; [lia | exact Hsel].
    - unfold Product.handleSizeChange.
      destruct (find_first (fun v => String.eqb (Product.variant_size v) chosen) variants)
        as [v|] eqn:E; cbn.
      + split; [exact Hq |]. intros _. exists v. split; [exact E | reflexivity].
      + split; [exact Hq |]. intros Hne. exfalso.
        cbn in Hoff. destruct Hoff as [-> | Hin]; [congruence |].
        apply in_map_iff in Hin. destruct Hin as (w & Ew & Hw).
        apply find_first_None_iff in E. rewrite List.Forall_forall in E.
        specialize (E w Hw). cbn in E. rewrite Ew, String.eqb_refl in E. discriminate. }
  apply Hgen. split; [cbn; lia |]. cbn. congruence.
Qed.

(** X8.  Whatever the user did with the quantity buttons and the size
    selector, the quantity is at least 1, and the cart button, which is
    there only while a size is selected, hands [addItem] an item of that
    very size, with the price of the variant that has it, the id of the
    product and the quantity on display.  Variant ids are taken to be
    distinct and non-empty, as keys of the store are. *)
Theorem add_to_cart_matches_selection product variants gestures :
  Forall (Product.offered variants) gestures ->
  NoDup (map Product.variant_id variants) ->
  Forall (fun v => Product.variant_id v <> "") variants ->
  let sel := fold_left (Product.perform variants) gestures Product.initial in
  1 <= Product.quantity sel
  /\ (Product.selectedSize sel = "" ->
      Product.clickAddToCart (Some product) variants sel = None)
  /\ (Product.selectedSize sel <> "" ->
      exists variant,
        In variant variants /\
        Product.variant_size variant = Product.selectedSize sel /\
        Product.clickAddToCart (Some product) variants sel
        = Some (Cart.mkItem
                  (Product.product_id product)
                  (Product.product_name product ++ " - " ++ Product.selectedSize sel)
                  (parsePriceToNumber (Product.variant_price variant))
                  (Product.quantity sel)
                  (Product.image_url product)
                  ((fun tiers =>
                      map (fun tier => mkTier (Product.tier_min_quantity tier)
                                         (parsePriceToNumber (Product.tier_raw_price tier)))
                          tiers) <$> Product.product_tiers product)
                  (Some (Product.selectedSize sel))
                  (Some (Product.variant_id variant)))).
Proof.
  intros Hg Hnd Hids sel.
  destruct (selection_invariant variants gestures Hg) as [Hq Hsel]. fold sel in Hq, Hsel.
  split; [exact Hq |]. split.
  - intros E. unfold Product.clickAddToCart. rewrite E. reflexivity.
  - intros Hne. destruct (Hsel Hne) as (v & Hfind & Hid).
    apply find_first_Some_In in Hfind. destruct Hfind as [Hv Hsize].
    apply String.eqb_eq in Hsize.
    exists v. split; [exact Hv |]. split; [exact Hsize |].
    unfold Product.clickAddToCart, Product.handleAddToCart, Product.getNumericPriceForCart.
    apply String.eqb_neq in Hne. rewrite Hne, Hid.
    rewrite List.Forall_forall in Hids. specialize (Hids v Hv).
    apply String.eqb_neq in Hids. rewrite Hids.
    rewrite (find_variant_by_id variants v Hnd Hv), Hsize. reflexivity.
Qed.

Lemma add_to_cart_matches_selection_witness :
  Product.clickAddToCart
    (Some (Product.mkProduct "p1" "Neem oil" (PString "KES 100") None None))
    [Product.mkVariant "v1" "1L" (PString "KES 100") 4;
     Product.mkVariant "v2" "5L" (PString "KES 450") 9]
    (fold_left (Product.perform
                  [Product.mkVariant "v1" "1L" (PString "KES 100") 4;
                   Product.mkVariant "v2" "5L" (PString "KES 450") 9])
               [Product.ChooseSize "1L"; Product.PressQuantity (-1);
                Product.ChooseSize ""; Product.ChooseSize "5L";
                Product.PressQuantity 1]
               Product.initial)
  = Some (Cart.mkItem "p1" "Neem oil - 5L" 450 2 None None (Some "5L") (Some "v2")).
Proof.
  assert (Hoff : Forall (Product.offered
                           [Product.mkVariant "v1" "1L" (PString "KES 100") 4;
                            Product.mkVariant "v2" "5L" (PString "KES 450") 9])
                        [Product.ChooseSize "1L"; Product.PressQuantity (-1);
                         Product.ChooseSize ""; Product.ChooseSize "5L";
                         Product.PressQuantity 1])
    by (repeat constructor; cbn; auto).
  assert (Hnd : NoDup (map Product.variant_id
                         [Product.mkVariant "v1" "1L" (PString "KES 100") 4;
                          Product.mkVariant "v2" "5L" (PString "KES 450") 9]))
    by (apply (bool_decide_unpack _); vm_compute; exact I).
  assert (Hids : Forall (fun v => Product.variant_id v <> "")
                        [Product.mkVariant "v1" "1L" (PString "KES 100") 4;
                         Product.mkVariant "v2" "5L" (PString "KES 450") 9])
    by (repeat constructor; discriminate).
  destruct (proj2 (proj2 (add_to_cart_matches_selection
     (Product.mkProduct "p1" "Neem oil" (PString "KES 100") None None)
     _ _ Hoff Hnd Hids)) ltac:(discriminate))
    as (variant & Hin & Hsize & Hclick).
  destruct Hin as [<- | [<- | []]]; [discriminate Hsize | exact Hclick].
Defined.

(** ** The buttons of the tracking page *)

Lemma clickMarkDone_default_names pg o idx now :
  order pg = Some o -> Buttons.default_names o ->
  Buttons.clickMarkDone pg idx now = None.
Proof.
  intros Ho Hn. unfold Buttons.clickMarkDone, Buttons.markDoneShown. rewrite Ho.
  unfold Buttons.default_names in Hn.
  destruct (stages o) as [|s0 [|s1 [|s2 [|s3 [|s4 [|s5 [|s6 rest]]]]]]] eqn:Hst;
    try discriminate Hn.
  cbn in Hn. injection Hn as N0 N1 N2 N3 N4 N5.
  do 6 (destruct idx as [|idx]; cbn [lookup list_lookup];
        [first [ rewrite N0 | rewrite N1 | rewrite N2 | rewrite N3 | rewrite N4
               | idtac ]; cbn [is_string String.eqb Ascii.eqb Bool.eqb];
         rewrite ?andb_false_r; try reflexivity |]).
  2:{ destruct idx; reflexivity. }
  (* the last stage: shown only when it is the current one *)
  rewrite N5. cbn [is_string]. rewrite String.eqb_refl, andb_true_r.
  unfold Buttons.isCurrent. rewrite Hst.
  destruct (completed s5); cbn [negb andb]; [reflexivity |].
  destruct (current_stage [s0; s1; s2; s3; s4; s5]) as [[i cur]|] eqn:Hc;
    [| reflexivity].
  destruct (Nat.eqb 5 i) eqn:Ei; [| reflexivity].
  apply Nat.eqb_eq in Ei. subst i.
  apply (advanceStage_none pg o now Ho). right. exists 5%nat, cur.
  rewrite Hst. split; [exact Hc | cbn; lia].
Qed.

Lemma clickConfirmReceived_default_names pg o now :
  order pg = Some o -> Buttons.default_names o ->
  clickConfirmReceived pg now = Returns.
Proof.
  intros Ho Hn. unfold clickConfirmReceived, confirmButtonShown. rewrite Ho.
  unfold Buttons.default_names in Hn.
  destruct (stages o) as [|s0 [|s1 [|s2 [|s3 [|s4 [|s5 [|s6 rest]]]]]]] eqn:Hst;
    try discriminate Hn.
  cbn in Hn. injection Hn as _ _ _ _ _ N5.
  cbn [last]. rewrite N5. reflexivity.
Qed.

(** X9.  An order whose stage names are those of the default workflow, as
    every order placed at checkout has once loaded, cannot be moved from its
    tracking page: "Mark as Done" is only rendered on the stage named
    "Confirmed Received", the last one, where [advanceStage] refuses to act,
    and "Confirm Received" is only rendered when the last stage is named
    "Delivered".  Whatever is clicked, at whatever stage of completion, no
    update is sent and store and page stay as they are. *)
Theorem default_workflow_cannot_be_moved st o :
  (forall user info insert_ok new_id created row,
     Checkout.handlePlaceOrder user info insert_ok new_id created = Some row ->
     Buttons.default_names (order_of_row row))
  /\ (order (snd st) = Some o -> Buttons.default_names o ->
      (forall idx now, Buttons.clickMarkDone (snd st) idx now = None)
      /\ (forall now, clickConfirmReceived (snd st) now = Returns)
      /\ (in_sync st -> forall clicks, fold_left Buttons.press clicks st = st)).
Proof.
  split.
  { intros user info insert_ok new_id created row H.
    unfold Checkout.handlePlaceOrder in H.
    destruct user as [u|]; [| discriminate].
    destruct (negb (Checkout.address info =? "")%string && insert_ok); [| discriminate].
    injection H as <-.
    unfold Buttons.default_names, order_of_row, parse_stages,
      Checkout.deliveryStages, JSON_stringify.
    cbn [row_stages row_created_at stages].
    rewrite (try_block_delivery
               (RawText (Some (VArray [VObject
                  [("stage", VString "delivery");
                   ("address", VString (Checkout.address info));
                   ("instructions", VString (Checkout.instructions info));
                   ("status", VString "pending")]])))
               created
               [("stage", VString "delivery");
                ("address", VString (Checkout.address info));
                ("instructions", VString (Checkout.instructions info));
                ("status", VString "pending")]
               eq_refl eq_refl).
    reflexivity. }
  intros Ho Hn.
  assert (Hmark : forall idx now, Buttons.clickMarkDone (snd st) idx now = None)
    by (intros; eapply clickMarkDone_default_names; eassumption).
  assert (Hconf : forall now, clickConfirmReceived (snd st) now = Returns)
    by (intros; eapply clickConfirmReceived_default_names; eassumption).
  split; [exact Hmark |]. split; [exact Hconf |].
  intros Hsync clicks. induction clicks as [|c clicks IH]; [reflexivity |].
  cbn [fold_left]. replace (Buttons.press st c) with st; [exact IH |].
  destruct c as [|idx now ok|now ok]; cbn [Buttons.press].
  - cbn [step]. rewrite (refetch_same st o Hsync Ho). destruct st; reflexivity.
  - rewrite Hmark. reflexivity.
  - rewrite Hconf. reflexivity.
Qed.

Lemma default_workflow_cannot_be_moved_witness :
  fold_left Buttons.press
    [Buttons.MarkDone 1 "2025-01-02T09:30:00.000Z" true; Buttons.Refresh;
     Buttons.ConfirmReceived "2025-01-03T10:00:00.000Z" true;
     Buttons.MarkDone 5 "2025-01-03T11:00:00.000Z" true]
    (Examples.loaded "u1" "o1")
  = Examples.loaded "u1" "o1".
Proof.
  exact (proj2 (proj2 (proj2 (default_workflow_cannot_be_moved
                                (Examples.loaded "u1" "o1")
                                (order_of_row Examples.placed_row))
                             eq_refl eq_refl))
               (loaded_in_sync "u1" "o1") _).
Defined.

(** ** The page and the store, further *)

(** X10.  Writing a stage list and parsing it back returns the list as it
    was, for every list whose stages have a truthy name and a timestamp that
    [|| ''] leaves alone; a stage list that came out of the parser is such a
    list, so parsing, writing and parsing again changes no stage.  What is
    read back never carries delivery information. *)
Theorem parse_after_stringify raw created created' :
  (forall l, Forall conformant l ->
     parse_stages (stringify_stages l) created' = mkParsed l (VString "") (VString ""))
  /\ Forall conformant (parsedStages (parse_stages raw created))
  /\ parse_stages (stringify_stages (parsedStages (parse_stages raw created))) created'
     = mkParsed (parsedStages (parse_stages raw created)) (VString "") (VString "").
Proof.
  split; [intros l Hl; apply parse_stringify_stages, Hl |].
  split; [apply parse_stages_conformant |].
  apply parse_stringify_stages, parse_stages_conformant.
Qed.

Lemma parse_after_stringify_witness :
  parse_stages
    (stringify_stages [mkStage (VString "Order Placed") (VString "2025-01-01T08:00:00.000Z") true;
                       mkStage (VString "Delivered") (VString "") false])
    "2025-01-01T08:00:00+00:00"
  = mkParsed [mkStage (VString "Order Placed") (VString "2025-01-01T08:00:00.000Z") true;
              mkStage (VString "Delivered") (VString "") false]
             (VString "") (VString "").
Proof.
  refine (proj1 (parse_after_stringify RawAbsent "" "2025-01-01T08:00:00+00:00") _ _).
  repeat constructor.
Defined.

(** X11.  The delivery address and instructions live in the stages column,
    in the record written at checkout; an accepted [advanceStage] or
    [confirmReceipt] overwrites that column with the stage list, so from
    then on the page shows an empty address and empty instructions, and so
    does every later load of the row. *)
Theorem delivery_info_lost_on_first_write st o now :
  in_sync st -> order (snd st) = Some o ->
  (forall req, advanceStage (snd st) now = Some req ->
     exists o' row,
       order (snd (step (Advance now true) st)) = Some o' /\
       delivery_address o' = VString "" /\ Track.instructions o' = VString "" /\
       select_single (fst (step (Advance now true) st)) (id o) = Some row /\
       deliveryAddress (parse_stages (row_stages row) (row_created_at row)) = VString "")
  /\ (forall req, confirmReceipt (snd st) now = Sends req ->
        exists o',
          order (snd (step (Confirm now true) st)) = Some o' /\
          delivery_address o' = VString "" /\ Track.instructions o' = VString "").
Proof.
  intros H Ho. split.
  - intros req Ha.
    destruct (advanceStage_sends _ _ _ Ha)
      as (o1 & u & i & cur & next & Ho1 & _ & Hc & Hlt & _ & _).
    rewrite Ho in Ho1. injection Ho1 as <-.
    destruct (step_advance_accepted st o i cur now H Ho Hc Hlt)
      as (next' & _ & _ & Hstep & Hrow).
    destruct (in_sync_order st o H Ho) as (_ & _ & _ & _ & _ & _ & _ & Hconf).
    rewrite Hstep. eexists _, _. cbn [snd fst order delivery_address Track.instructions].
    split; [reflexivity |]. split; [reflexivity |]. split; [reflexivity |].
    split; [exact Hrow |]. cbn [row_stages row_created_at].
    rewrite parse_stringify_stages; [reflexivity |].
    apply complete_at_conformant; [exact Hconf |].
    apply (current_stage_lookup _ _ _ Hc).
  - intros req Ha.
    destruct (confirmReceipt_sends _ _ _ Ha) as (o1 & u & final & Ho1 & _ & Hl & Hc & _).
    rewrite Ho in Ho1. injection Ho1 as <-.
    rewrite (step_confirm_accepted st o final now H Ho Hl Hc).
    eexists. cbn [snd order delivery_address Track.instructions]. repeat split.
Qed.

Lemma delivery_info_lost_on_first_write_witness :
  delivery_address <$> order (snd (Examples.loaded "u1" "o1"))
  = Some (VString "Plot 7, Kiambu Road")
  /\ exists o' row,
       order (snd (step (Advance "2025-01-02T09:30:00.000Z" true)
                        (Examples.loaded "u1" "o1"))) = Some o' /\
       delivery_address o' = VString "" /\ Track.instructions o' = VString "" /\
       select_single (fst (step (Advance "2025-01-02T09:30:00.000Z" true)
                                (Examples.loaded "u1" "o1"))) "o1" = Some row /\
       deliveryAddress (parse_stages (row_stages row) (row_created_at row)) = VString "".
Proof.
  split; [reflexivity |].
  exact (proj1 (delivery_info_lost_on_first_write
                  (Examples.loaded "u1" "o1") (order_of_row Examples.placed_row)
                  "2025-01-02T09:30:00.000Z" (loaded_in_sync "u1" "o1") eq_refl)
               _ eq_refl).
Defined.

Lemma current_after_advance (l : list Stage) i cur now :
  completed_prefix l -> current_stage l = Some (i, cur) ->
  forall next, l !! S i = Some next ->
  current_stage (<[i := complete_at now cur]> l) = Some (S i, next).
Proof.
  intros Hp Hc next Hn.
  destruct (current_stage_lookup _ _ _ Hc) as (Hi & Hf & Hb).
  unfold current_stage. apply list_find_Some. split; [| split].
  - rewrite list_lookup_insert_ne by lia. exact Hn.
  - destruct (completed next) eqn:E; [| reflexivity].
    destruct (Hp i (S i) next ltac:(lia) Hn E) as (s' & Hs' & Hc'). congruence.
  - intros j y Hj Hlt. destruct (decide (j = i)) as [-> | Hne].
    + rewrite list_lookup_insert_eq in Hj by (apply lookup_lt_Some in Hi; exact Hi).
      injection Hj as <-. cbn. discriminate.
    + rewrite list_lookup_insert_ne in Hj by congruence.
      rewrite (Hb j y Hj ltac:(lia)). discriminate.
Qed.

(** X12.  On a loaded order whose completed stages are in front, an
    accepted [advanceStage] moves the current stage one position down and
    the status it writes is the name of that new current stage, whatever the
    length of the workflow; once the current stage is the last one,
    [advanceStage] does nothing, however often it is called. *)
Theorem advanceStage_moves_to_next st o i cur now :
  in_sync st -> order (snd st) = Some o ->
  completed_prefix (stages o) -> current_stage (stages o) = Some (i, cur) ->
  ((S i < length (stages o))%nat ->
   exists next,
     current_stage (shown (step (Advance now true) st)) = Some (S i, next) /\
     status <$> order (snd (step (Advance now true) st)) = Some (name next) /\
     completed_prefix (shown (step (Advance now true) st)))
  /\ ((length (stages o) <= S i)%nat ->
      forall nows, run ((fun t => Advance t true) <$> nows) st = st).
Proof.
  intros H Ho Hp Hc. split.
  - intros Hlt.
    destruct (step_advance_accepted st o i cur now H Ho Hc Hlt)
      as (next & Hn & _ & Hstep & _).
    exists next. rewrite Hstep. cbn [shown snd order stages status fmap option_fmap option_map].
    split; [apply current_after_advance; assumption |]. split; [reflexivity |].
    apply advance_completed_times; assumption.
  - intros Hle nows. unfold run.
    induction nows as [|t nows IH]; [reflexivity |].
    cbn [fmap list_fmap fold_left step].
    rewrite (advanceStage_none (snd st) o t Ho); [exact IH |].
    right. exists i, cur. split; assumption.
Qed.

Lemma advanceStage_moves_to_next_witness :
  exists next,
    current_stage (shown (step (Advance "2025-01-02T09:30:00.000Z" true)
                               (Examples.loaded "u1" "o1"))) = Some (2%nat, next) /\
    status <$> order (snd (step (Advance "2025-01-02T09:30:00.000Z" true)
                                (Examples.loaded "u1" "o1"))) = Some (name next) /\
    completed_prefix (shown (step (Advance "2025-01-02T09:30:00.000Z" true)
                                  (Examples.loaded "u1" "o1"))).
Proof.
  refine (proj1 (advanceStage_moves_to_next
                   (Examples.loaded "u1" "o1") (order_of_row Examples.placed_row)
                   1%nat (mkStage (VString "Payment Pending") (VString "") false)
                   "2025-01-02T09:30:00.000Z"
                   (loaded_in_sync "u1" "o1") eq_refl _ eq_refl) _).
  - apply (completed_prefix_app
             [mkStage (VString "Order Placed") (VString "2025-01-01T08:00:00+00:00") true]);
      repeat constructor.
  - change (2 < 6)%nat. lia.
Defined.

(** X13.  The query hands out an order only to a signed-in user, and then
    only the order with the requested id, which that user owns and which is
    parsed from a row of the store; without an order id, a session or a
    user it is rejected before the store is read. *)
Theorem queryFn_returns_own_order db pg :
  (forall o, queryFn db pg = Fetched o ->
     session pg = true /\ orderId pg = Some (id o) /\
     (exists u, user pg = Some u /\ user_id o = uid u) /\
     (exists row, In row db /\ row_id row = id o /\ row_user_id row = user_id o /\
                  o = order_of_row row))
  /\ (orderId pg = None \/ orderId pg = Some "" -> queryFn db pg = Rejected NoOrderId)
  /\ (session pg = false \/ user pg = None ->
      exists e, queryFn db pg = Rejected e /\ e <> AccessDenied /\ e <> FetchError).
Proof.
  split; [| split].
  - intros o H.
    destruct (queryFn_Fetched db pg o H)
      as (oid & u & data & Hoid & Hses & Hu & Hsel & Hid & Huid & ->).
    cbn [order_of_row id user_id]. rewrite Hid.
    split; [exact Hses |]. split; [exact Hoid |].
    split; [exists u; split; [exact Hu | exact Huid] |].
    exists data. repeat split; try assumption.
    unfold select_single in Hsel.
    destruct (filter (fun r => row_id r = oid) db) as [|r [|? ?]] eqn:E;
      try discriminate.
    injection Hsel as ->.
    assert (Hin : data ∈ filter (fun r => row_id r = oid) db) by (rewrite E; left).
    apply list_elem_of_filter in Hin. apply list_elem_of_In. tauto.
  - unfold queryFn. intros [-> | ->]; reflexivity.
  - unfold queryFn. intros Hno.
    destruct (orderId pg) as [oid|]; [| exists NoOrderId; repeat split; discriminate].
    destruct (String.eqb oid ""); [exists NoOrderId; repeat split; discriminate |].
    destruct (session pg); cbn [negb].
    + destruct Hno as [Hno | ->]; [discriminate |].
      exists NotAuthenticated. repeat split; discriminate.
    + exists PleaseSignIn. repeat split; discriminate.
Qed.

Lemma queryFn_returns_own_order_witness :
  session (Examples.opened "u1" "o1") = true /\
  orderId (Examples.opened "u1" "o1") = Some (id (order_of_row Examples.placed_row)) /\
  (exists u, user (Examples.opened "u1" "o1") = Some u /\
             user_id (order_of_row Examples.placed_row) = uid u) /\
  (exists row, In row Examples.store /\
               row_id row = id (order_of_row Examples.placed_row) /\
               row_user_id row = user_id (order_of_row Examples.placed_row) /\
               order_of_row Examples.placed_row = order_of_row row).
Proof.
  exact (proj1 (queryFn_returns_own_order Examples.store (Examples.opened "u1" "o1"))
               (order_of_row Examples.placed_row) eq_refl).
Defined.

Lemma step_request_id e pg db :
  fst (step e (db, pg)) = db \/
  exists req, where_id req = orderId pg /\ fst (step e (db, pg)) = apply_update req db.
Proof.
  destruct e as [|now ok|now ok]; cbn [step fst snd].
  - left. reflexivity.
  - destruct (advanceStage pg now) as [req|] eqn:H; [| left; reflexivity].
    destruct ok; [| left; reflexivity]. right. exists req. split; [| reflexivity].
    destruct (advanceStage_sends _ _ _ H) as (o & u & i & cur & next & _ & _ & _ & _ & _ & ->).
    reflexivity.
  - destruct (confirmReceipt pg now) as [| |req] eqn:H; try (left; reflexivity).
    destruct ok; [| left; reflexivity]. right. exists req. split; [| reflexivity].
    destruct (confirmReceipt_sends _ _ _ H) as (o & u & final & _ & _ & _ & _ & ->).
    reflexivity.
Qed.

(** X14.  Whatever the page does, it never changes the row of another
    order: every update is filtered on the order id of the page, so a row
    with a different id is the same before and after any series of events. *)
Theorem other_orders_untouched es db pg other row :
  select_single db other = Some row -> orderId pg <> Some other ->
  select_single (fst (run es (db, pg))) other = Some row
  /\ orderId (snd (run es (db, pg))) = orderId pg.
Proof.
  unfold run. revert db pg.
  induction es as [|e es IH]; intros db pg Hsel Hne; cbn [fold_left];
    [split; [exact Hsel | reflexivity] |].
  assert (Hid : orderId (snd (step e (db, pg))) = orderId pg).
  { destruct e as [|now ok|now ok]; cbn [step fst snd].
    - unfold refetch. destruct (queryFn db pg); reflexivity.
    - destruct (advanceStage pg now); [| reflexivity].
      unfold send. destruct ok; [| reflexivity]. cbn [fst snd].
      unfold refetch. destruct (queryFn _ pg); reflexivity.
    - destruct (confirmReceipt pg now); try reflexivity.
      unfold send. destruct ok; [| reflexivity]. cbn [fst snd].
      unfold refetch. destruct (queryFn _ pg); reflexivity. }
  assert (Hrow : select_single (fst (step e (db, pg))) other = Some row).
  { destruct (step_request_id e pg db) as [-> | (req & Hw & ->)]; [exact Hsel |].
    rewrite select_single_apply_update, Hsel. cbn. f_equal.
    unfold updated_row, matches. rewrite Hw.
    destruct (orderId pg) as [oid|]; [| reflexivity].
    destruct (String.eqb (row_id row) oid) eqn:E; [| reflexivity].
    apply String.eqb_eq in E. exfalso. apply Hne.
    rewrite <- E. f_equal. eapply select_single_row_id; eassumption. }
  destruct (step e (db, pg)) as [db' pg'] eqn:Est. cbn [fst snd] in *.
  destruct (IH db' pg' Hrow ltac:(congruence)) as [H1 H2].
  split; [exact H1 | congruence].
Qed.

Lemma other_orders_untouched_witness :
  select_single
    (fst (run [Confirm "2025-01-03T10:00:00.000Z" true;
               Advance "2025-01-03T11:00:00.000Z" true]
              (Examples.loaded "u1" "o2")))
    "o1"
  = Some Examples.placed_row.
Proof.
  exact (proj1 (other_orders_untouched
     [Confirm "2025-01-03T10:00:00.000Z" true; Advance "2025-01-03T11:00:00.000Z" true]
     Examples.store (snd (Examples.loaded "u1" "o2")) "o1" Examples.placed_row
     eq_refl ltac:(discriminate))).
Defined.

(** X15.  The page follows the store: starting from a page whose order is
    what its query returns, after any series of fetches, [advanceStage] and
    [confirmReceipt], accepted or refused, the order on the page is again
    exactly what the query returns, the parse of the row with its id, owned
    by the user of the page. *)
Theorem page_follows_store es st :
  in_sync st ->
  in_sync (run es st)
  /\ forall o, order (snd (run es st)) = Some o ->
       exists row, select_single (fst (run es st)) (id o) = Some row /\
                   o = order_of_row row /\
                   (exists u, user (snd (run es st)) = Some u /\ row_user_id row = uid u).
Proof.
  intros H. pose proof (run_in_sync es st H) as H'. split; [exact H' |].
  intros o Ho.
  destruct (queryFn_Fetched _ _ _ (H' o Ho))
    as (oid & u & data & _ & _ & Hu & Hsel & Hid & Huid & ->).
  exists data. cbn [order_of_row id]. rewrite Hid.
  split; [exact Hsel |]. split; [reflexivity |]. exists u. split; assumption.
Qed.

Lemma page_follows_store_witness :
  in_sync (run Examples.advanced_twice (Examples.loaded "u1" "o1")).
Proof.
  exact (proj1 (page_follows_store Examples.advanced_twice (Examples.loaded "u1" "o1")
                  (loaded_in_sync "u1" "o1"))).
Defined.

(** ** The discount code *)

Lemma discount_stays_zero trim tenth subtotal inputs :
  Forall (fun i => ~ Discount.pastes_code trim i) inputs ->
  forall f, Discount.appliedDiscount f = 0%Q ->
  Discount.appliedDiscount (fold_left (Discount.react trim tenth subtotal) inputs f) = 0%Q.
Proof.
  induction 1 as [|i inputs Hi _ IH]; intros f Hf; cbn [fold_left]; [exact Hf |].
  apply IH. destruct i as [text | [| | text]]; cbn; try exact Hf.
  cbn in Hi. destruct (String.eqb (trim text) "SAVE10") eqn:E; [| reflexivity].
  apply String.eqb_eq in E. contradiction.
Qed.

(** X16.  On the checkout page a discount is applied by the "Paste" button
    only: typing into the code field never changes the applied discount, so
    as long as no paste has found "SAVE10" (once trimmed) the discount is 0,
    whatever the field shows.  After a paste that read a text, code and
    discount depend on that text alone: the tenth of the subtotal for
    "SAVE10", 0 for anything else, which also takes back a discount applied
    before.  A paste that cannot read the clipboard changes nothing. *)
Theorem discount_only_by_paste (trim : string -> string) (tenth : Q -> Q)
    subtotal inputs :
  (Forall (fun i => ~ Discount.pastes_code trim i) inputs ->
   Discount.appliedDiscount
     (fold_left (Discount.react trim tenth subtotal) inputs Discount.initial) = 0%Q)
  /\ (forall f text,
        Discount.appliedDiscount (Discount.react trim tenth subtotal f (Discount.TypeCode text))
        = Discount.appliedDiscount f)
  /\ (forall f text,
        Discount.react trim tenth subtotal f (Discount.Paste (Discount.Holds text))
        = Discount.mkForm (trim text)
            (if String.eqb (trim text) "SAVE10" then tenth subtotal else 0%Q))
  /\ (forall f,
        Discount.react trim tenth subtotal f (Discount.Paste Discount.Unsupported) = f /\
        Discount.react trim tenth subtotal f (Discount.Paste Discount.ReadFails) = f).
Proof.
  split; [| repeat split].
  intros H. apply discount_stays_zero; [exact H | reflexivity].
Qed.

Lemma discount_only_by_paste_witness :
  Discount.appliedDiscount
    (fold_left (Discount.react (fun s => s) (Qmult (1 # 10)) 2000)
               [Discount.TypeCode "SAVE10"; Discount.Paste Discount.ReadFails;
                Discount.Paste (Discount.Holds "save10")]
               Discount.initial) = 0%Q.
Proof.
  refine (proj1 (discount_only_by_paste (fun s => s) (Qmult (1 # 10)) 2000
     [Discount.TypeCode "SAVE10"; Discount.Paste Discount.ReadFails;
      Discount.Paste (Discount.Holds "save10")]) _).
  repeat constructor; cbn; auto; discriminate.
Defined.

(** ** Tiers edited by the administrator *)

Lemma filter_out_index_past index (prev : list Admin.PricingTier) : forall i,
  (index < i)%nat -> Admin.filter_out_index index i prev = prev.
Proof.
  induction prev as [|tier rest IH]; intros i Hlt; cbn [Admin.filter_out_index];
    [reflexivity |].
  destruct (Nat.eqb i index) eqn:E; [apply Nat.eqb_eq in E; lia |].
  f_equal. apply IH. lia.
Qed.

Lemma filter_out_index_from index (prev : list Admin.PricingTier) : forall i,
  (i <= index)%nat ->
  Admin.filter_out_index index i prev
  = (take (index - i) prev ++ drop (S (index - i)) prev)%list.
Proof.
  induction prev as [|tier rest IH]; intros i Hle; cbn [Admin.filter_out_index].
  - rewrite take_nil, drop_nil. reflexivity.
  - destruct (Nat.eqb i index) eqn:E.
    + apply Nat.eqb_eq in E. subst i. rewrite Nat.sub_diag. cbn [take drop app].
      apply filter_out_index_past. lia.
    + apply Nat.eqb_neq in E.
      replace (index - i)%nat with (S (index - S i)) by lia.
      cbn [take drop app]. f_equal. apply IH. lia.
Qed.

Lemma map_at_index_lookup index c (prev : list Admin.PricingTier) : forall i j,
  Admin.map_at_index index i c prev !! j
  = (fun tier => if Nat.eqb (i + j) index then Admin.apply_change c tier else tier)
      <$> prev !! j.
Proof.
  induction prev as [|tier rest IH]; intros i j; cbn [Admin.map_at_index];
    [reflexivity |].
  destruct j as [|j]; cbn [lookup list_lookup].
  - rewrite Nat.add_0_r. reflexivity.
  - rewrite IH. replace (S i + j)%nat with (i + S j)%nat by lia. reflexivity.
Qed.

(** X17.  The editing of a tier list goes by position: [removeTier] takes
    out exactly the tier at the index and nothing when the index is out of
    range, [updateTier] changes the tier at the index and no other, and
    removing the tier that [addTier] has just appended gives the list back. *)
Theorem tier_editing_by_position (tiers : list Admin.PricingTier) index c :
  Admin.removeTier index tiers = (take index tiers ++ drop (S index) tiers)%list
  /\ ((length tiers <= index)%nat ->
      Admin.removeTier index tiers = tiers /\ Admin.updateTier index c tiers = tiers)
  /\ Admin.removeTier (length tiers) (Admin.addTier tiers) = tiers
  /\ length (Admin.updateTier index c tiers) = length tiers
  /\ (forall j, Admin.updateTier index c tiers !! j
                = (fun tier => if Nat.eqb j index then Admin.apply_change c tier else tier)
                    <$> tiers !! j).
Proof.
  assert (Hrem : forall i (l : list Admin.PricingTier),
            Admin.removeTier i l = (take i l ++ drop (S i) l)%list).
  { intros i l. unfold Admin.removeTier.
    rewrite filter_out_index_from by lia. rewrite Nat.sub_0_r. reflexivity. }
  assert (Hupd : forall j, Admin.updateTier index c tiers !! j
                = (fun tier => if Nat.eqb j index then Admin.apply_change c tier else tier)
                    <$> tiers !! j).
  { intros j. unfold Admin.updateTier. apply (map_at_index_lookup index c tiers 0 j). }
  assert (Hlen : length (Admin.updateTier index c tiers) = length tiers).
  { unfold Admin.updateTier. generalize 0%nat.
    induction tiers as [|t tiers IH]; intros i; cbn; [reflexivity |].
    f_equal. apply IH. intros j. unfold Admin.updateTier.
    apply (map_at_index_lookup index c tiers 0 j). }
  split; [apply Hrem |]. split; [| split; [| split; [exact Hlen | exact Hupd]]].
  - intros Hle. split.
    + rewrite Hrem, take_ge, drop_ge by lia. apply app_nil_r.
    + apply list_eq. intros j. rewrite Hupd.
      destruct (tiers !! j) as [t|] eqn:E; [| reflexivity]. cbn.
      apply lookup_lt_Some in E.
      destruct (Nat.eqb j index) eqn:E'; [apply Nat.eqb_eq in E'; lia | reflexivity].
  - rewrite Hrem. unfold Admin.addTier.
    rewrite take_app_length, drop_ge by (rewrite length_app; cbn; lia).
    apply app_nil_r.
Qed.

Lemma tier_editing_by_position_witness :
  Admin.removeTier 5 [Admin.mkPricingTier 5 "90"; Admin.mkPricingTier 10 "80"]
  = [Admin.mkPricingTier 5 "90"; Admin.mkPricingTier 10 "80"]
  /\ Admin.updateTier 5 (Admin.SetPrice "70")
       [Admin.mkPricingTier 5 "90"; Admin.mkPricingTier 10 "80"]
     = [Admin.mkPricingTier 5 "90"; Admin.mkPricingTier 10 "80"].
Proof.
  refine (proj1 (proj2 (tier_editing_by_position
     [Admin.mkPricingTier 5 "90"; Admin.mkPricingTier 10 "80"] 5
     (Admin.SetPrice "70"))) _).
  cbn. lia.
Defined.

Lemma find_first_app {A} (p : A -> bool) l1 l2 :
  find_first p (l1 ++ l2)
  = match find_first p l1 with
    | Some x => Some x
    | None => find_first p l2
    end.
Proof.
  induction l1 as [|x l1 IH]; [reflexivity |].
  cbn. destruct (p x); [reflexivity | exact IH].
Qed.

(** X18.  A tier that the administrator adds and saves untouched
    ([min_quantity] 0, empty price) reaches the cart as a tier of price 0
    that every quantity from 0 up qualifies for: for a product with such a
    tier at the end of its list, the unit price is that of the first earlier
    tier that qualifies and otherwise 0, never the price of the variant. *)
Theorem untouched_tier_prices_at_zero product variants sel item tiers :
  Product.product_tiers product = Some (map Admin.stored (Admin.addTier tiers)) ->
  Product.handleAddToCart (Some product) variants sel = Some item ->
  0 <= Product.quantity sel ->
  getUnitPrice (Cart.priced item)
  = match find_first (fun t => Admin.min_quantity t <=? Product.quantity sel) tiers with
    | Some t => parsePriceToNumber (PString (Admin.price t))
    | None => 0%Q
    end.
Proof.
  intros Htiers Hadd Hq.
  destruct (handleAddToCart_item product variants sel item Hadd)
    as (variant & _ & Hqty & Hp & Ht).
  destruct item as [i n p q img its sz vid]. cbn in Hqty, Hp, Ht. subst q p its.
  unfold Cart.priced. cbn [Cart.price Cart.quantity Cart.pricing_tiers].
  rewrite Htiers. cbn [fmap option_fmap option_map].
  rewrite getUnitPrice_find, find_first_map. cbn [min_quantity].
  unfold Admin.addTier. rewrite map_app, find_first_app, find_first_map.
  cbn [Admin.stored Product.tier_min_quantity Product.tier_raw_price].
  destruct (find_first _ tiers) as [t|]; cbn [fmap option_fmap option_map];
    [reflexivity |].
  cbn [map find_first Admin.stored Product.tier_min_quantity Admin.min_quantity
       Product.tier_raw_price Admin.price].
  destruct (0 <=? Product.quantity sel) eqn:E; [reflexivity |].
  apply Z.leb_gt in E. lia.
Qed.

Lemma untouched_tier_prices_at_zero_witness :
  getUnitPrice
    (Cart.priced
       (Cart.mkItem "p1" "Neem oil - 5L" 450 3 None
          (Some [mkTier 5 90; mkTier 0 0]) (Some "5L") (Some "v2"))) = 0%Q.
Proof.
  exact (untouched_tier_prices_at_zero
     (Product.mkProduct "p1" "Neem oil" (PString "KES 100") None
        (Some (map Admin.stored (Admin.addTier [Admin.mkPricingTier 5 "90"]))))
     [Product.mkVariant "v2" "5L" (PString "KES 450") 9]
     (Product.mkSelection 3 "5L" "v2") _ [Admin.mkPricingTier 5 "90"]
     eq_refl eq_refl ltac:(cbn; lia)).
Defined.

(** ** Notifications *)

Lemma unreadCount_as_read (l : list Notices.Notification) :
  Notices.unreadCount (Notices.as_read <$> l) = 0%nat.
Proof.
  unfold Notices.unreadCount. induction l as [|n l IH]; [reflexivity |].
  rewrite fmap_cons, filter_cons, decide_False by (cbn; discriminate). exact IH.
Qed.

(** X19.  The unread count never goes up by marking: an accepted
    [markAsRead] lowers it by the number of unread notifications with that
    id and keeps the list otherwise, an accepted [markAllRead] brings it to
    0, a refused write leaves the list as it is.  [markAllRead] sends
    nothing when nothing is unread, and otherwise asks for exactly the
    unread ids. *)
Theorem marking_lowers_unread_count notifications target :
  (Notices.unreadCount (Notices.markAsRead target true notifications)
   + length (filter (fun n => Notices.read n = false /\ Notices.id n = target)
                    notifications)
   = Notices.unreadCount notifications)%nat
  /\ length (Notices.markAsRead target true notifications) = length notifications
  /\ Notices.markAsRead target false notifications = notifications
  /\ (Notices.unreadCount notifications = 0%nat ->
      forall write_ok, Notices.markAllRead write_ok notifications = (None, notifications))
  /\ (Notices.unreadCount notifications <> 0%nat ->
      fst (Notices.markAllRead true notifications)
      = Some (Notices.id <$> filter (fun n => Notices.read n = false) notifications) /\
      Notices.unreadCount (snd (Notices.markAllRead true notifications)) = 0%nat /\
      snd (Notices.markAllRead false notifications) = notifications).
Proof.
  split; [| split; [| split; [| split]]].
  - unfold Notices.markAsRead, Notices.unreadCount.
    induction notifications as [|n l IH]; [reflexivity |].
    rewrite fmap_cons, !filter_cons.
    destruct (Z.eqb (Notices.id n) target) eqn:E.
    + apply Z.eqb_eq in E.
      rewrite (decide_False (P := Notices.read (Notices.as_read n) = false))
        by (cbn; discriminate).
      destruct (Notices.read n) eqn:R.
      * rewrite !decide_False by (intuition congruence). exact IH.
      * rewrite !decide_True by first [split; [reflexivity | exact E] | reflexivity].
        cbn [length]. rewrite <- IH. lia.
    + apply Z.eqb_neq in E.
      rewrite (decide_False (P := _ /\ _)) by tauto.
      destruct (Notices.read n) eqn:R.
      * rewrite !decide_False by congruence. exact IH.
      * rewrite !decide_True by reflexivity. cbn [length]. rewrite <- IH. lia.
  - unfold Notices.markAsRead. apply length_fmap.
  - reflexivity.
  - unfold Notices.unreadCount, Notices.markAllRead. intros H write_ok.
    destruct (filter _ notifications); [reflexivity | discriminate H].
  - unfold Notices.unreadCount at 1. unfold Notices.markAllRead. intros H.
    destruct (filter (fun n => Notices.read n = false) notifications) as [|n l] eqn:E;
      [contradiction H; reflexivity |].
    cbn [fmap list_fmap fst snd]. repeat split. apply unreadCount_as_read.
Qed.

Lemma marking_lowers_unread_count_witness :
  fst (Notices.markAllRead true
         [Notices.mkNotification 1 "u1" "Order Created" "" true "2025-01-01";
          Notices.mkNotification 2 "u1" "Order Created" "" false "2025-01-02"])
  = Some [2].
Proof.
  refine (proj1 (proj2 (proj2 (proj2 (proj2 (marking_lowers_unread_count
     [Notices.mkNotification 1 "u1" "Order Created" "" true "2025-01-01";
      Notices.mkNotification 2 "u1" "Order Created" "" false "2025-01-02"] 0)))) _)).
  discriminate.
Defined.

(** ** Order lines, placed orders and the quantity buttons *)

Lemma or_zero_Qeq q : (or_zero (Some q) == q)%Q.
Proof.
  unfold or_zero. destruct (Qeq_bool q 0) eqn:E; [| reflexivity].
  apply Qeq_bool_eq in E. symmetry. exact E.
Qed.

(** X20.  On the tracking page the price of an order line is taken from the
    variant when its price is a text, even an unreadable one, or a number
    other than 0, and from the product otherwise.  Whenever the result is a
    number read from a text it is the number [parsePriceToNumber] reads
    from the same text; it is NaN only when the text it was read from, the
    variant's or else the product's, holds no decimal, a case in which
    [parsePriceToNumber] gives 0. *)
Theorem order_line_price productPrice variantPrice :
  (forall s, Lines.orderLinePrice productPrice (Some (PString s))
             = parseFloat (strip_non_numeric s))
  /\ (forall q, Qeq_bool q 0 = false ->
                Lines.orderLinePrice productPrice (Some (PNumber q)) = Some q)
  /\ (variantPrice = None \/ variantPrice = Some PUndefined
      \/ (exists q, variantPrice = Some (PNumber q) /\ Qeq_bool q 0 = true) ->
      Lines.orderLinePrice productPrice variantPrice = enrichedItemPrice productPrice)
  /\ (forall s q, enrichedItemPrice (PString s) = Some q ->
                  (parsePriceToNumber (PString s) == q)%Q)
  /\ (Lines.orderLinePrice productPrice variantPrice = None ->
      exists s, parseFloat (strip_non_numeric s) = None /\
                parsePriceToNumber (PString s) = 0%Q /\
                (variantPrice = Some (PString s) \/ productPrice = PString s)).
Proof.
  split; [reflexivity |]. split; [intros q Hq; cbn; rewrite Hq; reflexivity |].
  split; [| split].
  - intros [-> | [-> | (q & -> & Hq)]]; cbn; [reflexivity | reflexivity |].
    rewrite Hq. reflexivity.
  - intros s q H. cbn in H. cbn [parsePriceToNumber].
    rewrite strip_remove_first_KES, H. apply or_zero_Qeq.
  - assert (Hprod : enrichedItemPrice productPrice = None ->
              exists s, parseFloat (strip_non_numeric s) = None /\
                        parsePriceToNumber (PString s) = 0%Q /\
                        productPrice = PString s).
    { destruct productPrice as [|q|s]; cbn; try discriminate.
      intros H. exists s. cbn [parsePriceToNumber].
      rewrite strip_remove_first_KES, H. repeat split. }
    assert (Hleft : enrichedItemPrice productPrice = None ->
              exists s, parseFloat (strip_non_numeric s) = None /\
                        parsePriceToNumber (PString s) = 0%Q /\
                        (variantPrice = Some (PString s) \/ productPrice = PString s)).
    { intros H. destruct (Hprod H) as (s & H1 & H2 & H3). exists s. auto. }
    destruct variantPrice as [[|q|s]|]; cbn; try exact Hleft.
    + destruct (Qeq_bool q 0); [exact Hleft | discriminate].
    + intros H. exists s. cbn [parsePriceToNumber].
      rewrite strip_remove_first_KES, H. repeat split. left. reflexivity.
Qed.

Lemma order_line_price_witness :
  Lines.orderLinePrice (PString "KES 1,200.50") (Some (PNumber 0))
  = enrichedItemPrice (PString "KES 1,200.50").
Proof.
  refine (proj1 (proj2 (proj2 (order_line_price (PString "KES 1,200.50")
                                 (Some (PNumber 0))))) _).
  right. right. exists 0%Q. split; reflexivity.
Defined.

Lemma select_single_appended db row :
  Forall (fun r => row_id r <> row_id row) db ->
  select_single (db ++ [row]) (row_id row) = Some row.
Proof.
  intros H. unfold select_single. rewrite filter_app.
  assert (E : filter (fun r => row_id r = row_id row) db = []).
  { induction H as [|r db Hr _ IH]; [reflexivity |].
    rewrite filter_cons, decide_False by exact Hr. exact IH. }
  rewrite E. cbn [app]. rewrite filter_cons, decide_True by reflexivity.
  reflexivity.
Qed.

(** X21.  Once [handlePlaceOrder] has inserted its row under a fresh,
    non-empty id, the tracking page of the user who placed the order loads
    it with the default six-stage workflow, the address and the instructions
    typed at checkout, and the status "Order Placed (Making Order)", while
    the stage on display as current is "Payment Pending"; for any other
    signed-in user the same page is rejected with "Access denied". *)
Theorem placed_order_is_trackable db u info new_id created row :
  Checkout.handlePlaceOrder (Some u) info true new_id created = Some row ->
  new_id <> "" -> Forall (fun r => row_id r <> new_id) db ->
  queryFn (db ++ [row]) (mkPage (Some new_id) true (Some u) None)
  = Fetched (mkOrder new_id (uid u) (VString "Order Placed (Making Order)")
                     (default_stages created) created
                     (VString (Checkout.address info))
                     (VString (Checkout.instructions info)))
  /\ current_stage (default_stages created)
     = Some (1%nat, mkStage (VString "Payment Pending") (VString "") false)
  /\ (forall v, uid v <> uid u ->
        queryFn (db ++ [row]) (mkPage (Some new_id) true (Some v) None)
        = Rejected AccessDenied).
Proof.
  unfold Checkout.handlePlaceOrder. intros H Hne Hfresh.
  destruct (negb (Checkout.address info =? "")%string && true); [| discriminate].
  injection H as <-.
  set (row := mkRow new_id (uid u) (VString "Order Placed (Making Order)")
                    (JSON_stringify (Checkout.deliveryStages info)) created).
  assert (Hsel : select_single (db ++ [row]) new_id = Some row)
    by (apply (select_single_appended db row); exact Hfresh).
  apply String.eqb_neq in Hne.
  split; [| split; [reflexivity |]].
  - unfold queryFn. cbn [orderId session user negb]. rewrite Hne, Hsel.
    cbn [row row_user_id]. rewrite String.eqb_refl. cbn [negb].
    unfold order_of_row, parse_stages, row, Checkout.deliveryStages, JSON_stringify.
    cbn [row_stages row_created_at row_id row_user_id row_status].
    rewrite (try_block_delivery
               (RawText (Some (VArray [VObject
                  [("stage", VString "delivery");
                   ("address", VString (Checkout.address info));
                   ("instructions", VString (Checkout.instructions info));
                   ("status", VString "pending")]])))
               created
               [("stage", VString "delivery");
                ("address", VString (Checkout.address info));
                ("instructions", VString (Checkout.instructions info));
                ("status", VString "pending")]
               eq_refl eq_refl).
    cbn [own_property String.eqb Ascii.eqb Bool.eqb parsedStages deliveryAddress
         parsedInstructions].
    rewrite !js_or_text. reflexivity.
  - intros v Hv. unfold queryFn. cbn [orderId session user negb]. rewrite Hne, Hsel.
    cbn [row row_user_id].
    destruct (String.eqb (uid u) (uid v)) eqn:E; [| reflexivity].
    apply String.eqb_eq in E. congruence.
Qed.

Lemma placed_order_is_trackable_witness :
  queryFn ([Examples.short_row] ++ [Examples.placed_row])
          (mkPage (Some "o1") true (Some (mkUser "u2")) None)
  = Rejected AccessDenied.
Proof.
  refine (proj2 (proj2 (placed_order_is_trackable [Examples.short_row] (mkUser "u1")
     (Checkout.mkDeliveryInfo "Plot 7, Kiambu Road" "") "o1"
     "2025-01-01T08:00:00+00:00" Examples.placed_row eq_refl _ _)) (mkUser "u2") _).
  - discriminate.
  - repeat constructor. discriminate.
  - discriminate.
Defined.

(** X22.  In a cart with distinct ids and quantities of at least 1, the
    plus button followed by the minus button of a line, each of which
    dispatches the quantity on display changed by one, gives the cart
    back. *)
Theorem plus_then_minus_restores_cart cart item :
  NoDup (map Cart.id cart) ->
  Forall (fun it => 1 <= Cart.quantity it) cart ->
  In item cart ->
  let plus := Cart.cartReducer cart
                (Cart.UPDATE_QUANTITY (Cart.id item) (Cart.quantity item + 1)) in
  (forall shown, In shown plus -> Cart.id shown = Cart.id item ->
                 Cart.quantity shown = Cart.quantity item + 1)
  /\ Cart.cartReducer plus
       (Cart.UPDATE_QUANTITY (Cart.id item) (Cart.quantity item + 1 - 1))
     = cart.
Proof.
  intros Hnd Hpos Hin plus.
  assert (Hrule : forall (l : list Cart.Item) target q,
            Forall (fun it => 1 <= Cart.quantity it) l ->
            Cart.cartReducer l (Cart.UPDATE_QUANTITY target q)
            = (fun it => if String.eqb (Cart.id it) target
                         then Cart.with_quantity (Z.max 1 q) it else it) <$> l).
  { intros l target q Hl. cbn [Cart.cartReducer]. apply filter_positive_all.
    apply Forall_fmap. eapply List.Forall_impl; [| exact Hl]. cbn. intros x Hx.
    destruct (String.eqb (Cart.id x) target); cbn; lia. }
  assert (Hq : 1 <= Cart.quantity item)
    by (rewrite List.Forall_forall in Hpos; apply Hpos, Hin).
  assert (Hplus : plus = (fun it => if String.eqb (Cart.id it) (Cart.id item)
                            then Cart.with_quantity (Z.max 1 (Cart.quantity item + 1)) it
                            else it) <$> cart)
    by (apply Hrule, Hpos).
  split.
  - intros shown Hs Hid. rewrite Hplus in Hs.
    apply list_elem_of_In, list_elem_of_fmap in Hs. destruct Hs as (y & -> & Hy).
    destruct (String.eqb (Cart.id y) (Cart.id item)) eqn:E.
    + cbn. lia.
    + apply String.eqb_neq in E. contradiction.
  - rewrite Hrule.
    2:{ rewrite Hplus. apply Forall_fmap. eapply List.Forall_impl; [| exact Hpos].
        cbn. intros x Hx. destruct (String.eqb (Cart.id x) (Cart.id item)); cbn; lia. }
    rewrite Hplus, <- list_fmap_compose.
    rewrite <- (list_fmap_id cart) at 2. apply list_fmap_ext. intros i y Hy. cbn.
    destruct (String.eqb (Cart.id y) (Cart.id item)) eqn:E.
    + cbn [Cart.id Cart.with_quantity]. rewrite E.
      apply String.eqb_eq in E.
      assert (y = item).
      { clear -Hnd Hy Hin E. apply list_elem_of_lookup_2, list_elem_of_In in Hy.
        induction cart as [|a l IH]; [destruct Hin |].
        cbn [map] in Hnd. apply NoDup_cons in Hnd. destruct Hnd as [Ha Hl].
        assert (Hmem : forall z, In z l -> Cart.id z ∈ map Cart.id l)
          by (intros z Hz; apply list_elem_of_In, in_map, Hz).
        destruct Hy as [<- | Hy], Hin as [<- | Hin]; [reflexivity | | |].
        - exfalso. apply Ha. rewrite E. apply Hmem, Hin.
        - exfalso. apply Ha. rewrite <- E. apply Hmem, Hy.
        - apply IH; assumption. }
      subst y. destruct item; unfold Cart.with_quantity; cbn in *. f_equal. lia.
    + rewrite E. reflexivity.
Qed.

Lemma plus_then_minus_restores_cart_witness :
  Cart.cartReducer
    (Cart.cartReducer
       [Cart.mkItem "p1" "Neem oil - 1L" 100 3 None None (Some "1L") (Some "v1")]
       (Cart.UPDATE_QUANTITY "p1" (3 + 1)))
    (Cart.UPDATE_QUANTITY "p1" (3 + 1 - 1))
  = [Cart.mkItem "p1" "Neem oil - 1L" 100 3 None None (Some "1L") (Some "v1")].
Proof.
  refine (proj2 (plus_then_minus_restores_cart
     [Cart.mkItem "p1" "Neem oil - 1L" 100 3 None None (Some "1L") (Some "v1")]
     (Cart.mkItem "p1" "Neem oil - 1L" 100 3 None None (Some "1L") (Some "v1"))
     _ _ _)).
  - apply (bool_decide_unpack _). vm_compute. exact I.
  - repeat constructor. cbn. lia.
  - left. reflexivity.
Defined.
